(** * Pulse counter on the ESP32 ULP coprocessor

    A shallow embedding of
    [esphome/components/pulse_counter_ulp/pulse_counter_ulp_sensor.cpp]
    and the properties of its register protocol.

    The source file holds two revisions of the component.  The current one
    ([UlpProgram] with [start], [pop_state], [peek_state] and
    [set_mean_exec_time]) is embedded in module [Ulp]; the earlier one
    ([UlpPulseCounterStorage] with [pulse_counter_setup] and
    [read_raw_value], and a sensor that keeps a running total) is embedded
    in module [Legacy]. *)

From Stdlib Require Import ZArith List Bool Lia.
From Stdlib Require Import Floats.SpecFloat.
Import ListNotations.
Local Open Scope Z_scope.

(** ** Fixed-width integers

    Machine integers are kept as [Z]; a conversion to an unsigned type of
    [w] bits is reduction modulo [2^w], as C++ defines it. *)

Definition to_uint16 (z : Z) : Z := z mod 2 ^ 16.
Definition to_uint32 (z : Z) : Z := z mod 2 ^ 32.

(** An integer type whose declaration is in the header, which is not part
    of the sources ([pulse_counter_t], [timestamp_t]): its width and
    signedness stay parameters. *)
Record int_type : Set := IntType { int_bits : positive; int_signed : bool }.

Definition int32_t : int_type := IntType 32 true.
Definition uint32_t : int_type := IntType 32 false.

(** [static_cast<T>(z)]: two's complement reduction into the range of [T]. *)
Definition int_cast (t : int_type) (z : Z) : Z :=
  let m := 2 ^ Zpos (int_bits t) in
  if int_signed t then (z + m / 2) mod m - m / 2 else z mod m.

(** ** Single-precision floats

    [float] on the target is IEEE 754 binary32, rounding to nearest even:
    the standard library's executable specification at 24 bits of
    mantissa. *)
Module Float32.
Definition prec : Z := 24.
Definition emax : Z := 128.
Definition float : Set := spec_float.

(** conversion of an integer to [float] *)
Definition of_Z (z : Z) : float := binary_normalize prec emax z 0 false.
Definition mul (x y : float) : float := SFmul prec emax x y.
Definition div (x y : float) : float := SFdiv prec emax x y.
End Float32.

(** ** The shared variables in RTC slow memory

    Each [ulp_xyz] is a 32-bit word ([ulp_main.h] is generated at build
    time); the coprocessor reads the lower 16 bits only. *)
Inductive ulp_var : Set :=
| EdgeCount | RunCount | DebounceCounter | DebounceMaxCount
| NextEdge | IoNumber | MeanExecTime.

Record rtc_slow_mem : Set := RtcSlowMem {
  ulp_edge_count : Z;
  ulp_run_count : Z;
  ulp_debounce_counter : Z;
  ulp_debounce_max_count : Z;
  ulp_next_edge : Z;
  ulp_io_number : Z;
  ulp_mean_exec_time : Z
}.

Definition load (v : ulp_var) (m : rtc_slow_mem) : Z :=
  match v with
  | EdgeCount => ulp_edge_count m
  | RunCount => ulp_run_count m
  | DebounceCounter => ulp_debounce_counter m
  | DebounceMaxCount => ulp_debounce_max_count m
  | NextEdge => ulp_next_edge m
  | IoNumber => ulp_io_number m
  | MeanExecTime => ulp_mean_exec_time m
  end.

(** An assignment [ulp_xyz = e] converts [e] to the 32-bit word. *)
Definition store (v : ulp_var) (x : Z) (m : rtc_slow_mem) : rtc_slow_mem :=
  let '(RtcSlowMem ec rc dc dm ne io me) := m in
  let x := to_uint32 x in
  match v with
  | EdgeCount => RtcSlowMem x rc dc dm ne io me
  | RunCount => RtcSlowMem ec x dc dm ne io me
  | DebounceCounter => RtcSlowMem ec rc x dm ne io me
  | DebounceMaxCount => RtcSlowMem ec rc dc x ne io me
  | NextEdge => RtcSlowMem ec rc dc dm x io me
  | IoNumber => RtcSlowMem ec rc dc dm ne x me
  | MeanExecTime => RtcSlowMem ec rc dc dm ne io x
  end.

(** ** Platform services and what the component does to them *)

Definition esp_err_t : Set := Z.
Definition ESP_OK : esp_err_t := 0.
Definition esp_ok (e : esp_err_t) : bool := e =? ESP_OK.

Definition esp_sleep_source_t : Set := Z.
Definition ESP_SLEEP_WAKEUP_UNDEFINED : esp_sleep_source_t := 0.

(** What the platform answers during one boot: the results of loading
    and of starting the coprocessor program, the RTC I/O table, and the
    cause of the wake-up. *)
Record platform : Type := Platform {
  ulp_load_binary : esp_err_t;
  ulp_run : esp_err_t;
  rtc_gpio_is_valid_gpio : Z -> bool;
  rtc_io_number_get : Z -> Z;
  esp_sleep_get_wakeup_cause : esp_sleep_source_t
}.

Inductive log_message : Set :=
| LoadingFailed (e : esp_err_t)   (* "Loading ULP binary failed: %s" *)
| MustBeRtcIo                     (* "GPIO used for pulse counting must be an RTC IO" *)
| StartingFailed (e : esp_err_t). (* "Starting ULP program failed: %s" *)

(** Everything observable outside the sensor object, in program order:
    accesses to the shared variables, calls into the platform, error
    logs, and published values. *)
Inductive event : Set :=
| RegRead (v : ulp_var)
| RegWrite (v : ulp_var) (x : Z)
| PinSetup
| UlpLoadBinary
| RtcGpioInit (gpio : Z)
| RtcGpioSetDirectionInputOnly (gpio : Z)
| RtcGpioHoldEn (gpio : Z)
| UlpSetWakeupPeriod (period_us : Z)
| UlpRun
| LogE (m : log_message)
| PublishState (x : Float32.float)
| PublishTotal (n : Z).

Record world : Set := World { mem : rtc_slow_mem; trace : list event }.

(** ** A state monad with faults

    A computation transforms the world and either returns or stops at
    undefined behaviour. *)
Inductive fault : Set := IntegerDivideByZero.

Inductive outcome (A : Type) : Type :=
| Done (a : A) (w : world)
| Fault (f : fault).
Arguments Done {A} a w.
Arguments Fault {A} f.

Definition M (A : Type) : Type := world -> outcome A.

Definition ret {A} (a : A) : M A := fun w => Done a w.
Definition bind {A B} (c : M A) (k : A -> M B) : M B :=
  fun w => match c w with
           | Done a w' => k a w'
           | Fault f => Fault f
           end.
Definition raise {A} (f : fault) : M A := fun _ => Fault f.

Declare Scope m_scope.
Delimit Scope m_scope with m.
Notation "x <- c ;; k" := (bind c (fun x => k))
  (at level 61, c at next level, right associativity) : m_scope.
Notation "c ;; k" := (bind c (fun _ => k))
  (at level 61, right associativity) : m_scope.
Local Open Scope m_scope.

Definition emit (e : event) : M unit :=
  fun w => Done tt (World (mem w) (trace w ++ [e])).

Definition read_var (v : ulp_var) : M Z :=
  fun w => Done (load v (mem w)) (World (mem w) (trace w ++ [RegRead v])).

Definition write_var (v : ulp_var) (x : Z) : M unit :=
  fun w => Done tt (World (store v x (mem w))
                          (trace w ++ [RegWrite v (to_uint32 x)])).

(** Projections of a trace. *)
Definition published (t : list event) : list Float32.float :=
  flat_map (fun e => match e with PublishState x => [x] | _ => [] end) t.

Definition published_totals (t : list event) : list Z :=
  flat_map (fun e => match e with PublishTotal n => [n] | _ => [] end) t.

Definition register_accesses (t : list event) : list event :=
  filter (fun e => match e with RegRead _ | RegWrite _ _ => true | _ => false end) t.

Definition register_writes (t : list event) : list event :=
  filter (fun e => match e with RegWrite _ _ => true | _ => false end) t.

(** The coprocessor runs on its own between two calls of the main
    processor: it changes the shared variables and nothing else. *)
Definition aux_activity (f : rtc_slow_mem -> rtc_slow_mem) : M unit :=
  fun w => Done tt (World (f (mem w)) (trace w)).

(** ** The current revision: [UlpProgram] and its sensor *)
Module Ulp.

Inductive CountMode : Set := disable | increment | decrement.

(** [sleep_duration_] is kept as its length in microseconds, which is what
    [config.sleep_duration_ / microseconds{1}] evaluates to; [pin_] as the
    number [pin_->get_pin()] returns. *)
Record Config : Set := {
  pin_ : Z;
  rising_edge_mode_ : CountMode;
  falling_edge_mode_ : CountMode;
  sleep_duration_ : Z;
  debounce_ : Z
}.

(** [UlpProgram] has no data members: a [std::unique_ptr<UlpProgram>] is
    either null or owns the one object. *)
Inductive UlpProgram : Set := UlpProgramObject.

(** [UlpProgram::State]; [mean_exec_time] in microseconds. *)
Record State : Set := {
  edge_count : Z;
  run_count : Z;
  mean_exec_time : Z
}.

(** [ulp_load_binary] copies the program image; the embedding leaves the
    shared variables as they were across it, and [start] assigns all
    seven of them afterwards. *)
Definition start (p : platform) (config : Config) : M (option UlpProgram) :=
  emit UlpLoadBinary ;;
  let error := ulp_load_binary p in
  if negb (esp_ok error) then
    emit (LogE (LoadingFailed error)) ;;
    ret None
  else
    let gpio_num := pin_ config in
    let rtcio_num := rtc_io_number_get p gpio_num in
    (if negb (rtc_gpio_is_valid_gpio p gpio_num)
     then emit (LogE MustBeRtcIo) else ret tt) ;;
    write_var EdgeCount 0 ;;
    write_var RunCount 0 ;;
    write_var DebounceCounter 3 ;;
    write_var DebounceMaxCount (debounce_ config) ;;
    write_var NextEdge 0 ;;
    write_var IoNumber rtcio_num ;;
    write_var MeanExecTime (sleep_duration_ config) ;;
    emit (RtcGpioInit gpio_num) ;;
    emit (RtcGpioSetDirectionInputOnly gpio_num) ;;
    emit (RtcGpioHoldEn gpio_num) ;;
    emit (UlpSetWakeupPeriod (to_uint32 (sleep_duration_ config))) ;;
    emit UlpRun ;;
    let error := ulp_run p in
    if negb (esp_ok error) then
      emit (LogE (StartingFailed error)) ;;
      ret None
    else
      ret (Some UlpProgramObject).

Definition peek_state (this : UlpProgram) : M State :=
  e <- read_var EdgeCount ;;
  r <- read_var RunCount ;;
  m <- read_var MeanExecTime ;;
  ret {| edge_count := to_uint16 e;
         run_count := to_uint16 r;
         mean_exec_time := 1 * to_uint16 m |}.

Definition pop_state (this : UlpProgram) : M State :=
  state <- peek_state this ;;
  write_var EdgeCount 0 ;;
  write_var RunCount 0 ;;
  ret state.

(** [mean_exec_time] in microseconds, so [mean_exec_time / microseconds{1}]
    is the number itself. *)
Definition set_mean_exec_time (this : UlpProgram) (mean_exec_time : Z) : M unit :=
  write_var MeanExecTime (to_uint16 (Z.quot mean_exec_time 1)).

Record PulseCounterUlpSensor : Set := {
  config_ : Config;
  storage_ : option UlpProgram;
  last_time_ : Z;
  failed_ : bool
}.

Definition with_storage (this : PulseCounterUlpSensor) (s : option UlpProgram) :=
  {| config_ := config_ this; storage_ := s;
     last_time_ := last_time_ this; failed_ := failed_ this |}.

Definition with_last_time (this : PulseCounterUlpSensor) (t : Z) :=
  {| config_ := config_ this; storage_ := storage_ this;
     last_time_ := t; failed_ := failed_ this |}.

Definition mark_failed (this : PulseCounterUlpSensor) :=
  {| config_ := config_ this; storage_ := storage_ this;
     last_time_ := last_time_ this; failed_ := true |}.

(** The sensor as the constructor leaves it. *)
Definition new_sensor (config : Config) : PulseCounterUlpSensor :=
  {| config_ := config; storage_ := None; last_time_ := 0; failed_ := false |}.

(** *** The clock

    [clock] is declared in the header.  A time point and a [clock::duration]
    are counts of clock ticks.  The assignment to [last_time_] in [setup]
    converts a duration in microseconds to [clock::duration] implicitly,
    which C++ accepts for integer counts only when a microsecond is a whole
    number of ticks: [ticks_per_us] of them (1000 for a nanosecond clock).
    The 64-bit counts are kept as exact integers. *)
Section Clock.

Variable ticks_per_us : positive.

Definition of_microseconds (us : Z) : Z := Zpos ticks_per_us * us.
Definition of_milliseconds (ms : Z) : Z := of_microseconds (1000 * ms).
Definition of_seconds (s : Z) : Z := of_milliseconds (1000 * s).

(** [std::chrono::duration_cast<microseconds>] truncates toward zero. *)
Definition duration_cast_microseconds (d : Z) : Z :=
  Z.quot d (Zpos ticks_per_us).

(** [d / n] on a duration with an integer count: integer division, which
    is undefined when [n] is zero. *)
Definition duration_div (d n : Z) : M Z :=
  if n =? 0 then raise IntegerDivideByZero else ret (Z.quot d n).

(** [std::chrono::minutes{1} * static_cast<float>(edges) / interval]: the
    product is a [float] count of minutes; the quotient of two durations
    converts both to their common type, [float] counts of clock ticks,
    the minutes by a multiplication with the number of ticks in a
    minute. *)
Definition pulses_per_minute (edges interval : Z) : Float32.float :=
  let minutes := Float32.mul (Float32.of_Z 1) (Float32.of_Z edges) in
  let ticks_per_minute := 60 * 1000000 * Zpos ticks_per_us in
  Float32.div (Float32.mul minutes (Float32.of_Z ticks_per_minute))
              (Float32.of_Z interval).

Definition setup (p : platform) (now : Z) (this : PulseCounterUlpSensor)
  : M PulseCounterUlpSensor :=
  emit PinSetup ;;
  this <- (if esp_sleep_get_wakeup_cause p =? ESP_SLEEP_WAKEUP_UNDEFINED then
             s <- start p (config_ this) ;;
             ret (with_storage this s)
           else
             let this := with_storage this (Some UlpProgramObject) in
             state <- peek_state UlpProgramObject ;;
             ret (with_last_time this
                    (now - of_microseconds (run_count state * mean_exec_time state)))) ;;
  match storage_ this with
  | None => ret (mark_failed this)
  | Some _ => ret this
  end.

Definition update (now : Z) (this : PulseCounterUlpSensor)
  : M PulseCounterUlpSensor :=
  match storage_ this with
  | None => ret this
  | Some storage =>
      raw <- pop_state storage ;;
      let interval := now - last_time_ this in
      (if negb (interval =? 0) then
         q <- duration_div interval (run_count raw) ;;
         set_mean_exec_time storage (duration_cast_microseconds q) ;;
         let value := pulses_per_minute (edge_count raw) interval in
         emit (PublishState value)
       else ret tt) ;;
      ret (with_last_time this now)
  end.

(** One polling tick: what the coprocessor did since the previous call,
    and the clock reading inside [update]. *)
Record tick : Type := Tick {
  aux : rtc_slow_mem -> rtc_slow_mem;
  now : Z
}.

Fixpoint run_ticks (ts : list tick) (this : PulseCounterUlpSensor)
  : M PulseCounterUlpSensor :=
  match ts with
  | [] => ret this
  | t :: ts' =>
      aux_activity (aux t) ;;
      this' <- update (now t) this ;;
      run_ticks ts' this'
  end.

End Clock.

(** The memory after the coprocessor activity of a series of ticks alone. *)
Definition aux_all (ts : list tick) (m : rtc_slow_mem) : rtc_slow_mem :=
  fold_left (fun m t => aux t m) ts m.

End Ulp.

(** ** The earlier revision: [UlpPulseCounterStorage] and its sensor *)
Module Legacy.

Record UlpPulseCounterStorage : Set := {
  rising_edge_mode : Ulp.CountMode;
  falling_edge_mode : Ulp.CountMode;
  pin : option Z
}.

(** [total_sensor_] is a pointer to a sensor object that the component
    only publishes to: what matters of it is whether it is null. *)
Record PulseCounterUlpSensor : Set := {
  pin_ : Z;
  storage_ : UlpPulseCounterStorage;
  last_time_ : Z;
  current_total_ : Z;
  total_sensor_ : bool;
  failed_ : bool
}.

Definition with_pin (this : UlpPulseCounterStorage) (p : Z) :=
  {| rising_edge_mode := rising_edge_mode this;
     falling_edge_mode := falling_edge_mode this;
     pin := Some p |}.

Definition with_storage (this : PulseCounterUlpSensor) (s : UlpPulseCounterStorage) :=
  {| pin_ := pin_ this; storage_ := s; last_time_ := last_time_ this;
     current_total_ := current_total_ this;
     total_sensor_ := total_sensor_ this; failed_ := failed_ this |}.

Definition with_last_time (this : PulseCounterUlpSensor) (t : Z) :=
  {| pin_ := pin_ this; storage_ := storage_ this; last_time_ := t;
     current_total_ := current_total_ this;
     total_sensor_ := total_sensor_ this; failed_ := failed_ this |}.

Definition with_current_total (this : PulseCounterUlpSensor) (n : Z) :=
  {| pin_ := pin_ this; storage_ := storage_ this;
     last_time_ := last_time_ this; current_total_ := n;
     total_sensor_ := total_sensor_ this; failed_ := failed_ this |}.

Definition mark_failed (this : PulseCounterUlpSensor) :=
  {| pin_ := pin_ this; storage_ := storage_ this;
     last_time_ := last_time_ this; current_total_ := current_total_ this;
     total_sensor_ := total_sensor_ this; failed_ := true |}.

Definition pulse_counter_setup (p : platform) (pin : Z)
    (this : UlpPulseCounterStorage) : M (bool * UlpPulseCounterStorage) :=
  let this := with_pin this pin in
  emit PinSetup ;;
  if esp_sleep_get_wakeup_cause p =? ESP_SLEEP_WAKEUP_UNDEFINED then
    emit UlpLoadBinary ;;
    let error := ulp_load_binary p in
    if negb (esp_ok error) then
      emit (LogE (LoadingFailed error)) ;;
      ret (false, this)
    else
      let gpio_num := pin in
      let rtcio_num := rtc_io_number_get p gpio_num in
      (if negb (rtc_gpio_is_valid_gpio p gpio_num)
       then emit (LogE MustBeRtcIo) else ret tt) ;;
      write_var EdgeCount 0 ;;
      write_var RunCount 0 ;;
      write_var DebounceCounter 3 ;;
      write_var DebounceMaxCount 3 ;;
      write_var NextEdge 0 ;;
      write_var IoNumber rtcio_num ;;
      emit (RtcGpioInit gpio_num) ;;
      emit (RtcGpioSetDirectionInputOnly gpio_num) ;;
      emit (RtcGpioHoldEn gpio_num) ;;
      emit (UlpSetWakeupPeriod 20000) ;;
      emit UlpRun ;;
      let error := ulp_run p in
      if negb (esp_ok error) then
        emit (LogE (StartingFailed error)) ;;
        ret (false, this)
      else
        ret (true, this)
  else
    ret (true, this).

Definition setup (p : platform) (this : PulseCounterUlpSensor)
  : M PulseCounterUlpSensor :=
  r <- pulse_counter_setup p (pin_ this) (storage_ this) ;;
  let this := with_storage this (snd r) in
  if negb (fst r) then ret (mark_failed this) else ret this.

(** [this->total_sensor_->publish_state(pulses)] dereferences the pointer:
    without a total sensor the call is undefined and has no result.  The
    argument is converted to the [uint32_t] parameter at the call. *)
Definition set_total_pulses (pulses : Z) (this : PulseCounterUlpSensor)
  : option (M PulseCounterUlpSensor) :=
  let pulses := to_uint32 pulses in
  let this := with_current_total this pulses in
  if total_sensor_ this then
    Some (emit (PublishTotal pulses) ;; ret this)
  else None.

(** [pulse_counter_t] and [timestamp_t] are declared in the header. *)
Section Types.

Variables pulse_counter_t timestamp_t : int_type.

Definition read_raw_value : M Z :=
  count <- read_var EdgeCount ;;
  write_var EdgeCount 0 ;;
  ret (int_cast pulse_counter_t count).

(** [millis] is what [millis()] returns in this call.  The total goes to
    a sink for unsigned integers; [current_total_] is a [uint32_t]. *)
Definition update (millis : Z) (this : PulseCounterUlpSensor)
  : M PulseCounterUlpSensor :=
  raw <- read_raw_value ;;
  let now := int_cast timestamp_t millis in
  let interval := int_cast timestamp_t (now - last_time_ this) in
  (if negb (last_time_ this =? 0) then
     let value := Float32.div (Float32.mul (Float32.of_Z 60000) (Float32.of_Z raw))
                              (Float32.of_Z interval) in
     emit (PublishState value)
   else ret tt) ;;
  this <- (if total_sensor_ this then
             let this := with_current_total this (to_uint32 (current_total_ this + raw)) in
             emit (PublishTotal (current_total_ this)) ;;
             ret this
           else ret this) ;;
  ret (with_last_time this now).

Record tick : Type := Tick {
  aux : rtc_slow_mem -> rtc_slow_mem;
  millis : Z
}.

Fixpoint run_ticks (ts : list tick) (this : PulseCounterUlpSensor)
  : M PulseCounterUlpSensor :=
  match ts with
  | [] => ret this
  | t :: ts' =>
      aux_activity (aux t) ;;
      this' <- update (millis t) this ;;
      run_ticks ts' this'
  end.

(** What [read_raw_value] returns at each tick of a series that starts
    from memory [m]: the edge count the coprocessor has left in the
    variable, which every tick clears. *)
Fixpoint drained_counts (m : rtc_slow_mem) (ts : list tick) : list Z :=
  match ts with
  | [] => []
  | t :: ts' =>
      let m1 := aux t m in
      int_cast pulse_counter_t (ulp_edge_count m1)
        :: drained_counts (store EdgeCount 0 m1) ts'
  end.

End Types.

(** The totals after each of a series of additions to a [uint32_t]. *)
Fixpoint running_totals (total : Z) (counts : list Z) : list Z :=
  match counts with
  | [] => []
  | c :: cs =>
      let total' := to_uint32 (total + c) in
      total' :: running_totals total' cs
  end.

End Legacy.

(** ** Abbreviations and tactics for the proofs *)

(** The memory and the events of [pop_state]. *)
Definition drained_mem (m : rtc_slow_mem) : rtc_slow_mem :=
  store RunCount 0 (store EdgeCount 0 m).

Definition drain_events : list event :=
  [RegRead EdgeCount; RegRead RunCount; RegRead MeanExecTime;
   RegWrite EdgeCount 0; RegWrite RunCount 0].

(** The number of clock readings in a series that differ from the reading
    before them, [last] being the one before the first. *)
Fixpoint fresh_readings (last : Z) (nows : list Z) : nat :=
  match nows with
  | [] => O
  | n :: nows' =>
      ((if Z.eqb n last then O else S O) + fresh_readings n nows')%nat
  end.

(** The memory [start] leaves once the binary is loaded. *)
Definition started_mem (p : platform) (config : Ulp.Config) : rtc_slow_mem :=
  RtcSlowMem 0 0 3 (to_uint32 (Ulp.debounce_ config)) 0
             (to_uint32 (rtc_io_number_get p (Ulp.pin_ config)))
             (to_uint32 (Ulp.sleep_duration_ config)).

(** The events of [start] from the first assignment to the call of
    [ulp_run]. *)
Definition start_events (p : platform) (config : Ulp.Config) : list event :=
  [RegWrite EdgeCount 0; RegWrite RunCount 0; RegWrite DebounceCounter 3;
   RegWrite DebounceMaxCount (to_uint32 (Ulp.debounce_ config));
   RegWrite NextEdge 0;
   RegWrite IoNumber (to_uint32 (rtc_io_number_get p (Ulp.pin_ config)));
   RegWrite MeanExecTime (to_uint32 (Ulp.sleep_duration_ config));
   RtcGpioInit (Ulp.pin_ config);
   RtcGpioSetDirectionInputOnly (Ulp.pin_ config);
   RtcGpioHoldEn (Ulp.pin_ config);
   UlpSetWakeupPeriod (to_uint32 (Ulp.sleep_duration_ config));
   UlpRun].

(** The memory the cold path of [pulse_counter_setup] leaves once the
    binary is loaded ([mean_exec_time] is not assigned there), and its
    events from the first assignment to the call of [ulp_run]. *)
Definition legacy_started_mem (p : platform) (pin : Z) (m : rtc_slow_mem)
  : rtc_slow_mem :=
  RtcSlowMem 0 0 3 3 0 (to_uint32 (rtc_io_number_get p pin))
             (ulp_mean_exec_time m).

Definition legacy_start_events (p : platform) (pin : Z) : list event :=
  [RegWrite EdgeCount 0; RegWrite RunCount 0; RegWrite DebounceCounter 3;
   RegWrite DebounceMaxCount 3; RegWrite NextEdge 0;
   RegWrite IoNumber (to_uint32 (rtc_io_number_get p pin));
   RtcGpioInit pin; RtcGpioSetDirectionInputOnly pin; RtcGpioHoldEn pin;
   UlpSetWakeupPeriod 20000; UlpRun].

(** [run_m] unfolds the monad so that a straight-line computation reduces
    to its final world. *)
Ltac run_m :=
  cbv [bind ret raise emit read_var write_var aux_activity] in *; cbn [mem trace] in *.

Ltac trace_assoc := repeat rewrite <- app_assoc; cbn [app].

(** * Properties *)

(** ** Conversions *)

Lemma to_uint16_range (z : Z) : 0 <= to_uint16 z < 65536.
Proof. unfold to_uint16. change (2 ^ 16) with 65536. apply Z.mod_pos_bound. lia. Qed.

Lemma to_uint16_small (z : Z) : 0 <= z < 65536 -> to_uint16 z = z.
Proof. intros H. unfold to_uint16. change (2 ^ 16) with 65536. now apply Z.mod_small. Qed.

Lemma to_uint16_mask (z : Z) : to_uint16 z = Z.land z 65535.
Proof.
  unfold to_uint16. change 65535 with (Z.ones 16).
  symmetry. apply Z.land_ones. lia.
Qed.

Lemma to_uint32_of_uint16 (z : Z) : to_uint32 (to_uint16 z) = to_uint16 z.
Proof.
  unfold to_uint32. apply Z.mod_small.
  pose proof (to_uint16_range z). change (2 ^ 32) with 4294967296. lia.
Qed.

Lemma to_uint16_of_uint32 (z : Z) : to_uint16 (to_uint32 z) = to_uint16 z.
Proof.
  unfold to_uint16, to_uint32.
  apply Z.mod_mod_divide. exists 65536. reflexivity.
Qed.

Lemma to_uint32_idem (z : Z) : to_uint32 (to_uint32 z) = to_uint32 z.
Proof. unfold to_uint32. apply Z.mod_mod. lia. Qed.

(** ** The trace projections over an appended event *)

Lemma published_app (t u : list event) :
  published (t ++ u) = published t ++ published u.
Proof. unfold published. apply flat_map_app. Qed.

Lemma published_totals_app (t u : list event) :
  published_totals (t ++ u) = published_totals t ++ published_totals u.
Proof. unfold published_totals. apply flat_map_app. Qed.

Lemma register_writes_app (t u : list event) :
  register_writes (t ++ u) = register_writes t ++ register_writes u.
Proof. unfold register_writes. apply filter_app. Qed.

Lemma register_accesses_app (t u : list event) :
  register_accesses (t ++ u) = register_accesses t ++ register_accesses u.
Proof. unfold register_accesses. apply filter_app. Qed.

(** ** The register interface *)

Lemma peek_state_spec (h : Ulp.UlpProgram) (w : world) :
  Ulp.peek_state h w =
  Done {| Ulp.edge_count := to_uint16 (ulp_edge_count (mem w));
          Ulp.run_count := to_uint16 (ulp_run_count (mem w));
          Ulp.mean_exec_time := to_uint16 (ulp_mean_exec_time (mem w)) |}
       (World (mem w)
              (trace w ++ [RegRead EdgeCount; RegRead RunCount; RegRead MeanExecTime])).
Proof.
  unfold Ulp.peek_state. run_m. cbn [load]. trace_assoc.
  rewrite Z.mul_1_l. reflexivity.
Qed.

Lemma pop_state_spec (h : Ulp.UlpProgram) (w : world) :
  Ulp.pop_state h w =
  Done {| Ulp.edge_count := to_uint16 (ulp_edge_count (mem w));
          Ulp.run_count := to_uint16 (ulp_run_count (mem w));
          Ulp.mean_exec_time := to_uint16 (ulp_mean_exec_time (mem w)) |}
       (World (store RunCount 0 (store EdgeCount 0 (mem w)))
              (trace w ++ [RegRead EdgeCount; RegRead RunCount; RegRead MeanExecTime;
                           RegWrite EdgeCount 0; RegWrite RunCount 0])).
Proof.
  unfold Ulp.pop_state, bind. rewrite peek_state_spec.
  run_m. trace_assoc. reflexivity.
Qed.

Lemma set_mean_exec_time_spec (h : Ulp.UlpProgram) (d : Z) (w : world) :
  Ulp.set_mean_exec_time h d w =
  Done tt (World (store MeanExecTime (to_uint16 d) (mem w))
                 (trace w ++ [RegWrite MeanExecTime (to_uint16 d)])).
Proof.
  unfold Ulp.set_mean_exec_time. run_m.
  rewrite Z.quot_1_r, to_uint32_of_uint16. reflexivity.
Qed.

Lemma load_store_other (v v' : ulp_var) (x : Z) (m : rtc_slow_mem) :
  v <> v' -> load v (store v' x m) = load v m.
Proof. destruct m, v, v'; cbn; congruence. Qed.

Lemma load_store_same (v : ulp_var) (x : Z) (m : rtc_slow_mem) :
  load v (store v x m) = to_uint32 x.
Proof. destruct m, v; reflexivity. Qed.

(** C3. [pop_state] reads [edge_count] and [run_count] and clears both in
    the one call, leaving every other shared variable as it was; a second
    [pop_state] with no coprocessor activity in between returns zero for
    both and changes nothing. *)
Theorem pop_state_clears_both_and_is_idempotent :
  forall (h : Ulp.UlpProgram) (w : world),
  exists s1 w1 s2 w2,
    Ulp.pop_state h w = Done s1 w1 /\
    Ulp.pop_state h w1 = Done s2 w2 /\
    Ulp.edge_count s1 = to_uint16 (ulp_edge_count (mem w)) /\
    Ulp.run_count s1 = to_uint16 (ulp_run_count (mem w)) /\
    ulp_edge_count (mem w1) = 0 /\
    ulp_run_count (mem w1) = 0 /\
    (forall v, v <> EdgeCount -> v <> RunCount -> load v (mem w1) = load v (mem w)) /\
    register_writes (trace w1) =
      register_writes (trace w) ++ [RegWrite EdgeCount 0; RegWrite RunCount 0] /\
    Ulp.edge_count s2 = 0 /\
    Ulp.run_count s2 = 0 /\
    mem w2 = mem w1.
Proof.
  intros h w.
  rewrite pop_state_spec. do 2 eexists.
  rewrite pop_state_spec. do 2 eexists.
  do 2 (split; [reflexivity|]).
  cbn [mem trace Ulp.edge_count Ulp.run_count].
  repeat split.
  - destruct (mem w); reflexivity.
  - destruct (mem w); reflexivity.
  - intros v Hv1 Hv2. now rewrite !load_store_other by congruence.
  - rewrite register_writes_app. reflexivity.
  - destruct (mem w); reflexivity.
  - destruct (mem w); reflexivity.
  - destruct (mem w); reflexivity.
Qed.

(** C9. [peek_state] returns the low 16 bits of [edge_count], [run_count]
    and [mean_exec_time] and writes nothing; [set_mean_exec_time] stores
    the low 16 bits of the duration it is given, whatever the duration,
    and touches no other variable. *)
Theorem register_values_are_16_bit :
  (forall (h : Ulp.UlpProgram) (w : world),
     exists st w',
       Ulp.peek_state h w = Done st w' /\
       mem w' = mem w /\
       Ulp.edge_count st = Z.land (ulp_edge_count (mem w)) 65535 /\
       Ulp.run_count st = Z.land (ulp_run_count (mem w)) 65535 /\
       Ulp.mean_exec_time st = Z.land (ulp_mean_exec_time (mem w)) 65535 /\
       0 <= Ulp.edge_count st < 2 ^ 16 /\
       0 <= Ulp.run_count st < 2 ^ 16 /\
       0 <= Ulp.mean_exec_time st < 2 ^ 16) /\
  (forall (h : Ulp.UlpProgram) (duration : Z) (w : world),
     exists w',
       Ulp.set_mean_exec_time h duration w = Done tt w' /\
       ulp_mean_exec_time (mem w') = Z.land duration 65535 /\
       ulp_mean_exec_time (mem w') = duration mod 2 ^ 16 /\
       0 <= ulp_mean_exec_time (mem w') < 2 ^ 16 /\
       (forall v, v <> MeanExecTime -> load v (mem w') = load v (mem w))).
Proof.
  split.
  - intros h w. rewrite peek_state_spec. do 2 eexists.
    split; [reflexivity|].
    cbn [mem Ulp.edge_count Ulp.run_count Ulp.mean_exec_time].
    rewrite <- !to_uint16_mask. change (2 ^ 16) with 65536.
    repeat split; try apply to_uint16_range.
  - intros h d w. rewrite set_mean_exec_time_spec. eexists.
    split; [reflexivity|]. cbn [mem].
    assert (E : ulp_mean_exec_time (store MeanExecTime (to_uint16 d) (mem w)) = to_uint16 d).
    { change (ulp_mean_exec_time ?m) with (load MeanExecTime m).
      rewrite load_store_same. apply to_uint32_of_uint16. }
    rewrite E, <- to_uint16_mask. change (2 ^ 16) with 65536.
    repeat split; try apply to_uint16_range.
    intros v Hv. now apply load_store_other.
Qed.

(** ** Starting the coprocessor program *)

(** The memory a successful [start] leaves: all seven variables assigned. *)
Lemma start_returns (p : platform) (config : Ulp.Config) (w : world) :
  exists w',
    Ulp.start p config w =
      Done (if esp_ok (ulp_load_binary p) && esp_ok (ulp_run p)
            then Some Ulp.UlpProgramObject else None) w' /\
    published (trace w') = published (trace w) /\
    (esp_ok (ulp_load_binary p) = true ->
     mem w' = RtcSlowMem 0 0 3 (to_uint32 (Ulp.debounce_ config)) 0
                (to_uint32 (rtc_io_number_get p (Ulp.pin_ config)))
                (to_uint32 (Ulp.sleep_duration_ config))).
Proof.
  unfold Ulp.start.
  destruct (esp_ok (ulp_load_binary p)); cbn [negb andb].
  - destruct (rtc_gpio_is_valid_gpio p (Ulp.pin_ config));
      destruct (esp_ok (ulp_run p)); run_m; cbn [negb];
      eexists; (split; [reflexivity|]); cbn [mem trace];
      (split; [trace_assoc; rewrite published_app; cbn; apply app_nil_r
              | intros _; destruct (mem w); reflexivity]).
  - run_m. eexists. split; [reflexivity|]. cbn [mem trace].
    split; [trace_assoc; rewrite published_app; cbn; apply app_nil_r | discriminate].
Qed.

Lemma esp_ok_true (e : esp_err_t) : esp_ok e = true <-> e = ESP_OK.
Proof. unfold esp_ok. apply Z.eqb_eq. Qed.

Lemma esp_ok_false (e : esp_err_t) : esp_ok e = false <-> e <> ESP_OK.
Proof. unfold esp_ok. apply Z.eqb_neq. Qed.

(** C6. [start] fails, returning the null pointer, exactly when loading
    the binary or starting the coprocessor program reports an error;
    otherwise it returns the program object. *)
Theorem start_fails_iff_load_or_run_fails :
  forall (p : platform) (config : Ulp.Config) (w : world),
  exists r w',
    Ulp.start p config w = Done r w' /\
    (r = None <-> (ulp_load_binary p <> ESP_OK \/ ulp_run p <> ESP_OK)) /\
    (r <> None -> r = Some Ulp.UlpProgramObject).
Proof.
  intros p config w.
  destruct (start_returns p config w) as (w' & Hs & _).
  exists (if esp_ok (ulp_load_binary p) && esp_ok (ulp_run p)
          then Some Ulp.UlpProgramObject else None), w'.
  split; [exact Hs|].
  rewrite <- !esp_ok_false.
  destruct (esp_ok (ulp_load_binary p)), (esp_ok (ulp_run p)); cbn;
    repeat split; try tauto; try congruence; intros [H | H]; congruence.
Qed.

(** ** Setting up the sensor *)

Lemma setup_after_wake (tpu : positive) (p : platform) (now : Z)
    (this : Ulp.PulseCounterUlpSensor) (w : world) :
  esp_sleep_get_wakeup_cause p <> ESP_SLEEP_WAKEUP_UNDEFINED ->
  Ulp.setup tpu p now this w =
  Done (Ulp.with_last_time (Ulp.with_storage this (Some Ulp.UlpProgramObject))
          (now - Ulp.of_microseconds tpu
                   (to_uint16 (ulp_run_count (mem w)) *
                    to_uint16 (ulp_mean_exec_time (mem w)))))
       (World (mem w)
              (trace w ++ [PinSetup; RegRead EdgeCount; RegRead RunCount;
                           RegRead MeanExecTime])).
Proof.
  intros Hwake. unfold Ulp.setup.
  destruct (Z.eqb_spec (esp_sleep_get_wakeup_cause p) ESP_SLEEP_WAKEUP_UNDEFINED);
    [contradiction|].
  unfold bind at 1. unfold emit at 1.
  unfold bind at 1. unfold bind at 1. rewrite peek_state_spec.
  cbn [Ulp.run_count Ulp.mean_exec_time mem trace].
  unfold ret. cbn [Ulp.storage_ Ulp.with_last_time Ulp.with_storage].
  trace_assoc. reflexivity.
Qed.

(** C7. After a wake-up from sleep [setup] starts nothing and writes no
    shared variable: it reads the three of [peek_state], attaches the
    program object, and sets [last_time_] to the clock reading less
    [run_count] times [mean_exec_time], both as read (their low 16 bits).
    With [run_count] 50 and [mean_exec_time] 20000 microseconds that is
    1000 milliseconds before the clock reading. *)
Theorem setup_after_wake_backdates_last_time :
  forall (tpu : positive) (p : platform) (now : Z)
         (this : Ulp.PulseCounterUlpSensor) (w : world),
    esp_sleep_get_wakeup_cause p <> ESP_SLEEP_WAKEUP_UNDEFINED ->
    exists this' w',
      Ulp.setup tpu p now this w = Done this' w' /\
      mem w' = mem w /\
      trace w' = trace w ++ [PinSetup; RegRead EdgeCount; RegRead RunCount;
                             RegRead MeanExecTime] /\
      register_writes (trace w') = register_writes (trace w) /\
      Ulp.storage_ this' = Some Ulp.UlpProgramObject /\
      Ulp.failed_ this' = Ulp.failed_ this /\
      Ulp.last_time_ this' =
        now - Ulp.of_microseconds tpu
                (to_uint16 (ulp_run_count (mem w)) *
                 to_uint16 (ulp_mean_exec_time (mem w))) /\
      (ulp_run_count (mem w) = 50 ->
       ulp_mean_exec_time (mem w) = 20000 ->
       Ulp.last_time_ this' = now - Ulp.of_milliseconds tpu 1000).
Proof.
  intros tpu p now this w Hwake.
  rewrite (setup_after_wake tpu p now this w Hwake).
  do 2 eexists. split; [reflexivity|].
  cbn [mem trace Ulp.storage_ Ulp.failed_ Ulp.last_time_
       Ulp.with_last_time Ulp.with_storage].
  repeat split.
  - rewrite register_writes_app. cbn. apply app_nil_r.
  - intros Hr Hm. rewrite Hr, Hm. reflexivity.
Qed.

(** A warm boot at 5 s on a nanosecond clock, with 50 runs of 20 ms
    each in the variables: [last_time_] becomes 4 s. *)
Lemma setup_after_wake_backdates_last_time_witness :
  let p := Platform ESP_OK ESP_OK (fun _ => true) (fun g => g) 4 in
  let this := Ulp.new_sensor (Ulp.Build_Config 4 Ulp.increment Ulp.disable 20000 3) in
  let w := World (RtcSlowMem 7 50 0 3 0 4 20000) [] in
  exists this' w',
    Ulp.setup 1000 p 5000000000 this w = Done this' w' /\
    mem w' = mem w /\
    Ulp.storage_ this' = Some Ulp.UlpProgramObject /\
    Ulp.last_time_ this' = 4000000000.
Proof.
  intros p this w.
  destruct (setup_after_wake_backdates_last_time 1000 p 5000000000 this w)
    as (this' & w' & Hs & Hm & _ & _ & Hst & _ & _ & Hex).
  - cbn. discriminate.
  - exists this', w'. repeat split; try assumption.
    rewrite Hex; reflexivity.
Defined.

(** ** A sensor without a program *)

Lemma update_without_program (tpu : positive) (now : Z)
    (this : Ulp.PulseCounterUlpSensor) (w : world) :
  Ulp.storage_ this = None -> Ulp.update tpu now this w = Done this w.
Proof. intros H. unfold Ulp.update. now rewrite H. Qed.

Lemma run_ticks_without_program (tpu : positive) (ts : list Ulp.tick) :
  forall (this : Ulp.PulseCounterUlpSensor) (w : world),
    Ulp.storage_ this = None ->
    Ulp.run_ticks tpu ts this w =
    Done this (World (Ulp.aux_all ts (mem w)) (trace w)).
Proof.
  induction ts as [| t ts IH]; intros this w Hnull.
  - destruct w. reflexivity.
  - cbn [Ulp.run_ticks]. unfold bind at 1. unfold aux_activity at 1.
    unfold bind at 1. rewrite update_without_program by assumption.
    rewrite IH by assumption. reflexivity.
Qed.

Lemma setup_with_failed_start (tpu : positive) (p : platform) (now : Z)
    (this : Ulp.PulseCounterUlpSensor) (w : world) :
  esp_sleep_get_wakeup_cause p = ESP_SLEEP_WAKEUP_UNDEFINED ->
  esp_ok (ulp_load_binary p) && esp_ok (ulp_run p) = false ->
  exists w',
    Ulp.setup tpu p now this w =
      Done (Ulp.mark_failed (Ulp.with_storage this None)) w' /\
    published (trace w') = published (trace w).
Proof.
  intros Hcold Hfail. unfold Ulp.setup. rewrite Hcold, Z.eqb_refl.
  unfold bind at 1. unfold emit at 1.
  destruct (start_returns p (Ulp.config_ this)
              (World (mem w) (trace w ++ [PinSetup]))) as (w' & Hs & Hp & _).
  rewrite Hfail in Hs.
  unfold bind at 1. unfold bind at 1. rewrite Hs.
  exists w'. split; [reflexivity|].
  rewrite Hp. cbn [trace]. rewrite published_app. cbn. apply app_nil_r.
Qed.

(** C5. When this boot is not a wake-up from sleep and loading or
    starting the coprocessor program fails, [setup] leaves the sensor
    marked failed and without a program object, and every later [update]
    returns at once: over any series of ticks nothing is added to the
    trace (no access to a shared variable, nothing published), the sensor
    object stays as it is, and the shared variables change by the
    coprocessor's doing only. *)
Theorem failed_start_is_terminal :
  forall (tpu : positive) (p : platform) (now : Z)
         (this : Ulp.PulseCounterUlpSensor) (w : world),
    esp_sleep_get_wakeup_cause p = ESP_SLEEP_WAKEUP_UNDEFINED ->
    ulp_load_binary p <> ESP_OK \/ ulp_run p <> ESP_OK ->
    exists this' w',
      Ulp.setup tpu p now this w = Done this' w' /\
      Ulp.failed_ this' = true /\
      Ulp.storage_ this' = None /\
      published (trace w') = published (trace w) /\
      forall ts : list Ulp.tick,
      exists w'',
        Ulp.run_ticks tpu ts this' w' = Done this' w'' /\
        trace w'' = trace w' /\
        register_accesses (trace w'') = register_accesses (trace w') /\
        published (trace w'') = published (trace w) /\
        mem w'' = Ulp.aux_all ts (mem w').
Proof.
  intros tpu p now this w Hcold Hfail.
  assert (Hf : esp_ok (ulp_load_binary p) && esp_ok (ulp_run p) = false).
  { apply andb_false_iff. rewrite !esp_ok_false. exact Hfail. }
  destruct (setup_with_failed_start tpu p now this w Hcold Hf) as (w' & Hs & Hp).
  exists (Ulp.mark_failed (Ulp.with_storage this None)), w'.
  split; [exact Hs|]. do 3 (split; [reflexivity || exact Hp|]).
  intros ts. eexists. split.
  - apply run_ticks_without_program. reflexivity.
  - cbn [mem trace]. repeat split; assumption.
Qed.

(** A cold boot where loading the binary reports an error, followed by
    two ticks in which the shared edge counter is not zero. *)
Lemma failed_start_is_terminal_witness :
  let p := Platform 258 ESP_OK (fun _ => true) (fun g => g) ESP_SLEEP_WAKEUP_UNDEFINED in
  let this := Ulp.new_sensor (Ulp.Build_Config 4 Ulp.increment Ulp.disable 20000 3) in
  let w := World (RtcSlowMem 9 9 0 3 0 4 20000) [] in
  let ts := [Ulp.Tick (fun m => m) 60000000000; Ulp.Tick (fun m => m) 120000000000] in
  exists this' w' w'',
    Ulp.setup 1000 p 0 this w = Done this' w' /\
    Ulp.failed_ this' = true /\
    Ulp.run_ticks 1000 ts this' w' = Done this' w'' /\
    trace w'' = trace w' /\
    published (trace w'') = [].
Proof.
  intros p this w ts.
  destruct (failed_start_is_terminal 1000 p 0 this w)
    as (this' & w' & Hs & Hfl & _ & _ & Hticks).
  - reflexivity.
  - left. cbn. discriminate.
  - destruct (Hticks ts) as (w'' & Hr & Ht & _ & Hp & _).
    exists this', w', w''. repeat split; assumption.
Defined.

(** ** The first estimate of the time one coprocessor run takes *)

(** C10, as stated, fails for a wake period that does not fit 16 bits: a
    cold start with a sleep duration of 100 ms stores 100000, and a warm
    boot after three coprocessor runs and no drain reads back 34464, so
    that [last_time_] is not backdated by three wake periods. *)
Lemma warm_resume_estimate_counterexample :
  let config := Ulp.Build_Config 4 Ulp.increment Ulp.disable 100000 3 in
  let p := Platform ESP_OK ESP_OK (fun _ => true) (fun g => g)
                    ESP_SLEEP_WAKEUP_UNDEFINED in
  let p' := Platform ESP_OK ESP_OK (fun _ => true) (fun g => g) 4 in
  let now := 1000000000 in
  exists w1 this' w2,
    Ulp.start p config (World (RtcSlowMem 0 0 0 0 0 0 0) [])
      = Done (Some Ulp.UlpProgramObject) w1 /\
    ulp_mean_exec_time (mem w1) = 100000 /\
    (aux_activity (store RunCount 3) ;;
     Ulp.setup 1000 p' now (Ulp.new_sensor config)) w1 = Done this' w2 /\
    Ulp.last_time_ this' = now - Ulp.of_microseconds 1000 (3 * 34464) /\
    Ulp.last_time_ this' <>
      now - Ulp.of_microseconds 1000 (3 * Ulp.sleep_duration_ config).
Proof.
  intros config p p' now.
  do 3 eexists.
  split; [vm_compute; reflexivity|].
  split; [reflexivity|].
  split; [vm_compute; reflexivity|].
  split; [reflexivity|].
  vm_compute. discriminate.
Qed.

(** C10, amended. A successful cold start stores the sleep duration in
    microseconds in the 32-bit [mean_exec_time] variable.  A warm boot
    that follows with no drain in between, whatever the coprocessor did
    to the other variables, backdates [last_time_] by [run_count] times
    the low 16 bits of that duration, which is the wake period itself
    when it is below 65536 microseconds. *)
Theorem start_seeds_mean_exec_time :
  forall (tpu : positive) (p p' : platform) (config : Ulp.Config) (w : world)
         (f : rtc_slow_mem -> rtc_slow_mem) (now : Z)
         (this : Ulp.PulseCounterUlpSensor),
    ulp_load_binary p = ESP_OK ->
    ulp_run p = ESP_OK ->
    (forall m, ulp_mean_exec_time (f m) = ulp_mean_exec_time m) ->
    esp_sleep_get_wakeup_cause p' <> ESP_SLEEP_WAKEUP_UNDEFINED ->
    exists w1 this' w2,
      Ulp.start p config w = Done (Some Ulp.UlpProgramObject) w1 /\
      ulp_mean_exec_time (mem w1) = to_uint32 (Ulp.sleep_duration_ config) /\
      (aux_activity f ;; Ulp.setup tpu p' now this) w1 = Done this' w2 /\
      Ulp.last_time_ this' =
        now - Ulp.of_microseconds tpu
                (to_uint16 (ulp_run_count (f (mem w1))) *
                 to_uint16 (Ulp.sleep_duration_ config)) /\
      (0 <= Ulp.sleep_duration_ config < 65536 ->
       ulp_mean_exec_time (mem w1) = Ulp.sleep_duration_ config /\
       Ulp.last_time_ this' =
         now - Ulp.of_microseconds tpu
                 (to_uint16 (ulp_run_count (f (mem w1))) *
                  Ulp.sleep_duration_ config)).
Proof.
  intros tpu p p' config w f now this Hload Hrun Hf Hwake.
  destruct (start_returns p config w) as (w1 & Hs & _ & Hm).
  apply esp_ok_true in Hload, Hrun. rewrite Hload, Hrun in Hs. cbn [andb] in Hs.
  specialize (Hm Hload).
  assert (Hme : ulp_mean_exec_time (mem w1) = to_uint32 (Ulp.sleep_duration_ config))
    by (rewrite Hm; reflexivity).
  exists w1. do 2 eexists.
  split; [exact Hs|]. split; [exact Hme|].
  unfold bind at 1. unfold aux_activity at 1.
  rewrite (setup_after_wake tpu p' now this _ Hwake). cbn [mem trace].
  split; [reflexivity|].
  cbn [Ulp.last_time_ Ulp.with_last_time].
  rewrite Hf, Hme, to_uint16_of_uint32.
  split; [reflexivity|].
  intros Hsmall. rewrite (to_uint16_small _ Hsmall). split; [|reflexivity].
  unfold to_uint32. apply Z.mod_small. change (2 ^ 32) with 4294967296. lia.
Qed.

(** A cold start with a wake period of 20 ms, 50 coprocessor runs and 7
    edges, then a warm boot at 5 s on a nanosecond clock. *)
Lemma start_seeds_mean_exec_time_witness :
  let config := Ulp.Build_Config 4 Ulp.increment Ulp.disable 20000 3 in
  let p := Platform ESP_OK ESP_OK (fun _ => true) (fun g => g)
                    ESP_SLEEP_WAKEUP_UNDEFINED in
  let p' := Platform ESP_OK ESP_OK (fun _ => true) (fun g => g) 4 in
  let f := fun m => store RunCount 50 (store EdgeCount 7 m) in
  exists w1 this' w2,
    Ulp.start p config (World (RtcSlowMem 1 2 3 4 5 6 7) []) =
      Done (Some Ulp.UlpProgramObject) w1 /\
    ulp_mean_exec_time (mem w1) = 20000 /\
    (aux_activity f ;; Ulp.setup 1000 p' 5000000000 (Ulp.new_sensor config)) w1
      = Done this' w2 /\
    Ulp.last_time_ this' = 4000000000.
Proof.
  intros config p p' f.
  destruct (start_seeds_mean_exec_time 1000 p p' config
              (World (RtcSlowMem 1 2 3 4 5 6 7) []) f 5000000000
              (Ulp.new_sensor config))
    as (w1 & this' & w2 & Hs & _ & Hw & Hl & Hsmall).
  - reflexivity.
  - reflexivity.
  - intros m. destruct m. reflexivity.
  - cbn. discriminate.
  - exists w1, this', w2.
    destruct Hsmall as [Hm _]; [cbn; lia|].
    split; [exact Hs|]. split; [exact Hm|]. split; [exact Hw|].
    rewrite Hl.
    assert (Hw1 : w1 = World (RtcSlowMem 0 0 3 3 0 4 20000) (trace w1)).
    { vm_compute in Hs. injection Hs as <-. reflexivity. }
    rewrite Hw1. reflexivity.
Defined.

(** ** One polling tick of a sensor that has a program *)

(** [update] in full: the three ways a tick of a sensor with a program
    can go. *)
Lemma update_with_program (tpu : positive) (now : Z)
    (this : Ulp.PulseCounterUlpSensor) (w : world) (h : Ulp.UlpProgram) :
  Ulp.storage_ this = Some h ->
  let interval := now - Ulp.last_time_ this in
  let edges := to_uint16 (ulp_edge_count (mem w)) in
  let runs := to_uint16 (ulp_run_count (mem w)) in
  let estimate := to_uint16 (Z.quot (Z.quot interval runs) (Zpos tpu)) in
  Ulp.update tpu now this w =
    if interval =? 0 then
      Done (Ulp.with_last_time this now)
           (World (drained_mem (mem w)) (trace w ++ drain_events))
    else if runs =? 0 then
      Fault IntegerDivideByZero
    else
      Done (Ulp.with_last_time this now)
           (World (store MeanExecTime estimate (drained_mem (mem w)))
                  (trace w ++ drain_events ++
                     [RegWrite MeanExecTime estimate;
                      PublishState (Ulp.pulses_per_minute tpu edges interval)])).
Proof.
  intros Hprog interval edges runs estimate.
  unfold Ulp.update. rewrite Hprog.
  unfold bind at 1. rewrite pop_state_spec.
  cbn [Ulp.run_count Ulp.edge_count].
  fold interval edges runs. fold (drained_mem (mem w)). fold drain_events.
  destruct (interval =? 0); cbn [negb].
  - reflexivity.
  - unfold bind at 1. unfold bind at 1. unfold Ulp.duration_div.
    destruct (runs =? 0).
    + reflexivity.
    + unfold ret at 1. unfold bind at 1.
      rewrite set_mean_exec_time_spec.
      unfold Ulp.duration_cast_microseconds. fold estimate.
      unfold emit, ret. cbn [mem trace]. trace_assoc. reflexivity.
Qed.

(** C1. The division of the interval by [run_count] has no guard: a tick
    of a sensor with a program, at a clock reading other than
    [last_time_], with the low 16 bits of [run_count] zero, divides by
    zero. *)
Theorem update_divides_by_a_zero_run_count :
  forall (tpu : positive) (now : Z) (this : Ulp.PulseCounterUlpSensor)
         (w : world) (h : Ulp.UlpProgram),
    Ulp.storage_ this = Some h ->
    now - Ulp.last_time_ this <> 0 ->
    to_uint16 (ulp_run_count (mem w)) = 0 ->
    Ulp.update tpu now this w = Fault IntegerDivideByZero.
Proof.
  intros tpu now this w h Hprog Hint Hruns.
  rewrite (update_with_program tpu now this w h Hprog). cbv zeta.
  apply Z.eqb_neq in Hint. rewrite Hint, Hruns. reflexivity.
Qed.

(** A tick one millisecond after the previous one, on a nanosecond clock,
    before the coprocessor has run again. *)
Lemma update_divides_by_a_zero_run_count_witness :
  let config := Ulp.Build_Config 4 Ulp.increment Ulp.disable 20000 3 in
  let this := Ulp.Build_PulseCounterUlpSensor config (Some Ulp.UlpProgramObject)
                60000000000 false in
  Ulp.update 1000 60001000000 this (World (RtcSlowMem 0 0 3 3 0 4 20000) [])
    = Fault IntegerDivideByZero.
Proof.
  intros config this.
  apply (update_divides_by_a_zero_run_count 1000 60001000000 this _ Ulp.UlpProgramObject).
  - reflexivity.
  - cbn. discriminate.
  - reflexivity.
Defined.

(** With a run count that is not zero the estimate is the interval per
    run, in whole microseconds, cut to 16 bits. *)
Lemma update_sets_mean_exec_time (tpu : positive) (now : Z)
    (this : Ulp.PulseCounterUlpSensor) (w : world) (h : Ulp.UlpProgram) :
  Ulp.storage_ this = Some h ->
  now - Ulp.last_time_ this <> 0 ->
  to_uint16 (ulp_run_count (mem w)) <> 0 ->
  exists w',
    Ulp.update tpu now this w = Done (Ulp.with_last_time this now) w' /\
    ulp_mean_exec_time (mem w') =
      to_uint16 (Z.quot (Z.quot (now - Ulp.last_time_ this)
                                (to_uint16 (ulp_run_count (mem w))))
                        (Zpos tpu)) /\
    published (trace w') =
      published (trace w) ++
      [Ulp.pulses_per_minute tpu (to_uint16 (ulp_edge_count (mem w)))
                             (now - Ulp.last_time_ this)].
Proof.
  intros Hprog Hint Hruns.
  rewrite (update_with_program tpu now this w h Hprog). cbv zeta.
  apply Z.eqb_neq in Hint, Hruns. rewrite Hint, Hruns.
  eexists. split; [reflexivity|]. cbn [mem trace]. split.
  - change (ulp_mean_exec_time ?m) with (load MeanExecTime m).
    rewrite load_store_same. apply to_uint32_of_uint16.
  - rewrite !published_app. reflexivity.
Qed.

(** At a clock reading equal to [last_time_] a tick drains the counters,
    publishes nothing and divides nothing. *)
Lemma update_with_zero_interval (tpu : positive) (now : Z)
    (this : Ulp.PulseCounterUlpSensor) (w : world) (h : Ulp.UlpProgram) :
  Ulp.storage_ this = Some h ->
  now - Ulp.last_time_ this = 0 ->
  exists w',
    Ulp.update tpu now this w = Done (Ulp.with_last_time this now) w' /\
    published (trace w') = published (trace w) /\
    ulp_mean_exec_time (mem w') = ulp_mean_exec_time (mem w).
Proof.
  intros Hprog Hint.
  rewrite (update_with_program tpu now this w h Hprog). cbv zeta.
  rewrite Hint. cbn [Z.eqb].
  eexists. split; [reflexivity|]. cbn [mem trace]. split.
  - rewrite published_app. cbn. apply app_nil_r.
  - destruct (mem w). reflexivity.
Qed.

(** 120 edges in 60 seconds are published as the [float] 120, on a
    nanosecond clock and on a microsecond clock. *)
Lemma pulses_per_minute_120_in_60_s :
  Ulp.pulses_per_minute 1000 120 (Ulp.of_seconds 1000 60) = Float32.of_Z 120 /\
  Ulp.pulses_per_minute 1 120 (Ulp.of_seconds 1 60) = Float32.of_Z 120 /\
  Float32.of_Z 120 = S754_finite false 15728640 (-17).
Proof. repeat split; vm_compute; reflexivity. Qed.

(** A tick 60 s after the previous one on a nanosecond clock, with 120
    edges and 3000 runs in the variables: the estimate becomes 20000
    microseconds and the rate published is 120. *)
Lemma update_sets_mean_exec_time_witness :
  let config := Ulp.Build_Config 4 Ulp.increment Ulp.disable 20000 3 in
  let this := Ulp.Build_PulseCounterUlpSensor config (Some Ulp.UlpProgramObject)
                5 false in
  exists w',
    Ulp.update 1000 60000000005 this (World (RtcSlowMem 120 3000 3 3 0 4 7) [])
      = Done (Ulp.with_last_time this 60000000005) w' /\
    ulp_mean_exec_time (mem w') = 20000 /\
    published (trace w') = [Float32.of_Z 120].
Proof.
  intros config this.
  destruct (update_sets_mean_exec_time 1000 60000000005 this
              (World (RtcSlowMem 120 3000 3 3 0 4 7) []) Ulp.UlpProgramObject)
    as (w' & Hu & Hm & Hp).
  - reflexivity.
  - cbn. discriminate.
  - cbn. discriminate.
  - exists w'. split; [exact Hu|]. split.
    + rewrite Hm. reflexivity.
    + rewrite Hp. vm_compute. reflexivity.
Defined.

(** A tick at the clock reading of the previous one, with 120 edges and
    no run in the variables. *)
Lemma update_with_zero_interval_witness :
  let config := Ulp.Build_Config 4 Ulp.increment Ulp.disable 20000 3 in
  let this := Ulp.Build_PulseCounterUlpSensor config (Some Ulp.UlpProgramObject)
                5 false in
  exists w',
    Ulp.update 1000 5 this (World (RtcSlowMem 120 0 3 3 0 4 7) [])
      = Done (Ulp.with_last_time this 5) w' /\
    published (trace w') = [] /\
    ulp_mean_exec_time (mem w') = 7.
Proof.
  intros config this.
  destruct (update_with_zero_interval 1000 5 this
              (World (RtcSlowMem 120 0 3 3 0 4 7) []) Ulp.UlpProgramObject)
    as (w' & Hu & Hp & Hm); try reflexivity.
  exists w'. repeat split; assumption.
Defined.

(** ** The earlier revision's tick *)

Lemma legacy_update_spec (pc ts : int_type) (millis : Z)
    (this : Legacy.PulseCounterUlpSensor) (w : world) :
  let raw := int_cast pc (ulp_edge_count (mem w)) in
  let now := int_cast ts millis in
  let interval := int_cast ts (now - Legacy.last_time_ this) in
  let rate := Float32.div (Float32.mul (Float32.of_Z 60000) (Float32.of_Z raw))
                          (Float32.of_Z interval) in
  let total := to_uint32 (Legacy.current_total_ this + raw) in
  Legacy.update pc ts millis this w =
    Done (Legacy.with_last_time
            (if Legacy.total_sensor_ this
             then Legacy.with_current_total this total else this) now)
         (World (store EdgeCount 0 (mem w))
                (trace w ++ [RegRead EdgeCount; RegWrite EdgeCount 0] ++
                 (if negb (Legacy.last_time_ this =? 0)
                  then [PublishState rate] else []) ++
                 (if Legacy.total_sensor_ this
                  then [PublishTotal total] else []))).
Proof.
  cbv zeta. unfold Legacy.update, Legacy.read_raw_value.
  destruct (Legacy.last_time_ this =? 0), (Legacy.total_sensor_ this);
    run_m; cbn [load negb mem trace Legacy.current_total_ Legacy.with_current_total];
    trace_assoc; reflexivity.
Qed.

Lemma legacy_run_ticks_totals (pc ts : int_type) (ticks : list Legacy.tick) :
  forall (this : Legacy.PulseCounterUlpSensor) (w : world),
    Legacy.total_sensor_ this = true ->
    exists this' w',
      Legacy.run_ticks pc ts ticks this w = Done this' w' /\
      Legacy.total_sensor_ this' = true /\
      published_totals (trace w') =
        published_totals (trace w) ++
        Legacy.running_totals (Legacy.current_total_ this)
          (Legacy.drained_counts pc (mem w) ticks).
Proof.
  induction ticks as [| t ticks IH]; intros this w Htotal.
  - exists this, w. cbn. now rewrite app_nil_r.
  - cbn [Legacy.run_ticks Legacy.drained_counts Legacy.running_totals].
    unfold bind at 1. unfold aux_activity at 1.
    unfold bind at 1. rewrite legacy_update_spec. cbv zeta. cbn [mem trace].
    rewrite Htotal.
    match goal with
    | |- context [Legacy.run_ticks pc ts ticks ?s ?v] =>
        destruct (IH s v) as (this' & w' & Hrun & Htot' & Hpub); [exact Htotal|]
    end.
    exists this', w'. split; [exact Hrun|]. split; [exact Htot'|].
    rewrite Hpub. cbn [mem trace Legacy.current_total_ Legacy.with_last_time
                       Legacy.with_current_total].
    rewrite !published_totals_app.
    destruct (negb (Legacy.last_time_ this =? 0)); cbn [published_totals flat_map app];
      rewrite <- app_assoc; reflexivity.
Qed.

Lemma int_cast_zero (t : int_type) : int_cast t 0 = 0.
Proof.
  unfold int_cast.
  assert (Hm : 0 < 2 ^ Zpos (int_bits t)) by (apply Z.pow_pos_nonneg; lia).
  destruct (int_signed t).
  - rewrite Z.add_0_l, Z.mod_small; [lia|].
    split; [apply Z.div_pos; lia | apply Z.div_lt; lia].
  - reflexivity.
Qed.

(** The earlier revision's drain reads and clears [edge_count] alone: a
    second read with no coprocessor activity in between returns zero, and
    [run_count] is never touched. *)
Lemma read_raw_value_twice (pc : int_type) (w : world) :
  exists c1 w1 c2 w2,
    Legacy.read_raw_value pc w = Done c1 w1 /\
    Legacy.read_raw_value pc w1 = Done c2 w2 /\
    c1 = int_cast pc (ulp_edge_count (mem w)) /\
    c2 = 0 /\
    ulp_run_count (mem w2) = ulp_run_count (mem w).
Proof.
  unfold Legacy.read_raw_value. run_m. do 4 eexists.
  do 2 (split; [reflexivity|]). cbn [mem load].
  split; [reflexivity|]. split.
  - destruct (mem w); cbn. apply int_cast_zero.
  - destruct (mem w); reflexivity.
Qed.

(** C4. With a total sensor configured, each tick adds the count it
    drained to [current_total_], a [uint32_t], and publishes the sum: over
    any series of ticks the totals published are the running sums of the
    drained counts.  Three ticks that drain 10, 15 and 7 from a total of
    zero publish 10, 25 and 32. *)
Theorem totals_are_running_sums :
  forall (pc ts : int_type) (ticks : list Legacy.tick)
         (this : Legacy.PulseCounterUlpSensor) (w : world),
    Legacy.total_sensor_ this = true ->
    exists this' w',
      Legacy.run_ticks pc ts ticks this w = Done this' w' /\
      published_totals (trace w') =
        published_totals (trace w) ++
        Legacy.running_totals (Legacy.current_total_ this)
          (Legacy.drained_counts pc (mem w) ticks) /\
      (Legacy.current_total_ this = 0 ->
       Legacy.drained_counts pc (mem w) ticks = [10; 15; 7] ->
       published_totals (trace w') = published_totals (trace w) ++ [10; 25; 32]).
Proof.
  intros pc ts ticks this w Htotal.
  destruct (legacy_run_ticks_totals pc ts ticks this w Htotal)
    as (this' & w' & Hrun & _ & Hpub).
  exists this', w'. split; [exact Hrun|]. split; [exact Hpub|].
  intros Hzero Hcounts. rewrite Hpub, Hzero, Hcounts. reflexivity.
Qed.

(** Three ticks a minute apart in which the coprocessor counts 10, 15 and
    7 edges, with a 32-bit signed [pulse_counter_t]. *)
Lemma totals_are_running_sums_witness :
  let storage := Legacy.Build_UlpPulseCounterStorage Ulp.increment Ulp.disable (Some 4) in
  let this := Legacy.Build_PulseCounterUlpSensor 4 storage 0 0 true false in
  let edges n := fun m => store EdgeCount (ulp_edge_count m + n) m in
  let ticks := [Legacy.Tick (edges 10) 60000; Legacy.Tick (edges 15) 120000;
                Legacy.Tick (edges 7) 180000] in
  exists this' w',
    Legacy.run_ticks int32_t uint32_t ticks this (World (RtcSlowMem 0 0 3 3 0 4 0) [])
      = Done this' w' /\
    published_totals (trace w') = [10; 25; 32].
Proof.
  intros storage this edges ticks.
  destruct (totals_are_running_sums int32_t uint32_t ticks this
              (World (RtcSlowMem 0 0 3 3 0 4 0) []))
    as (this' & w' & Hrun & _ & Hex).
  - reflexivity.
  - exists this', w'. split; [exact Hrun|].
    apply Hex; reflexivity.
Defined.

(** ** A pin that is not an RTC I/O *)

(** C2. For a pin that [rtc_gpio_is_valid_gpio] rejects, [start] logs
    the error and goes on: with the binary loaded and the program
    started it assigns the shared variables ([io_number] from what
    [rtc_io_number_get] answers for the pin), configures the pin through
    the RTC GPIO calls, and returns the program object.  The cold path of
    [pulse_counter_setup] in the earlier revision does the same and
    returns [true]. *)
Theorem start_goes_on_after_invalid_pin :
  forall (p : platform) (config : Ulp.Config) (w : world)
         (storage : Legacy.UlpPulseCounterStorage),
    rtc_gpio_is_valid_gpio p (Ulp.pin_ config) = false ->
    ulp_load_binary p = ESP_OK ->
    ulp_run p = ESP_OK ->
    esp_sleep_get_wakeup_cause p = ESP_SLEEP_WAKEUP_UNDEFINED ->
    (exists w',
       Ulp.start p config w = Done (Some Ulp.UlpProgramObject) w' /\
       ulp_io_number (mem w') = to_uint32 (rtc_io_number_get p (Ulp.pin_ config)) /\
       trace w' =
         trace w ++
         [UlpLoadBinary; LogE MustBeRtcIo;
          RegWrite EdgeCount 0; RegWrite RunCount 0; RegWrite DebounceCounter 3;
          RegWrite DebounceMaxCount (to_uint32 (Ulp.debounce_ config));
          RegWrite NextEdge 0;
          RegWrite IoNumber (to_uint32 (rtc_io_number_get p (Ulp.pin_ config)));
          RegWrite MeanExecTime (to_uint32 (Ulp.sleep_duration_ config));
          RtcGpioInit (Ulp.pin_ config);
          RtcGpioSetDirectionInputOnly (Ulp.pin_ config);
          RtcGpioHoldEn (Ulp.pin_ config);
          UlpSetWakeupPeriod (to_uint32 (Ulp.sleep_duration_ config));
          UlpRun]) /\
    (exists w',
       Legacy.pulse_counter_setup p (Ulp.pin_ config) storage w =
         Done (true, Legacy.with_pin storage (Ulp.pin_ config)) w' /\
       ulp_io_number (mem w') = to_uint32 (rtc_io_number_get p (Ulp.pin_ config)) /\
       trace w' =
         trace w ++
         [PinSetup; UlpLoadBinary; LogE MustBeRtcIo;
          RegWrite EdgeCount 0; RegWrite RunCount 0; RegWrite DebounceCounter 3;
          RegWrite DebounceMaxCount 3; RegWrite NextEdge 0;
          RegWrite IoNumber (to_uint32 (rtc_io_number_get p (Ulp.pin_ config)));
          RtcGpioInit (Ulp.pin_ config);
          RtcGpioSetDirectionInputOnly (Ulp.pin_ config);
          RtcGpioHoldEn (Ulp.pin_ config);
          UlpSetWakeupPeriod 20000;
          UlpRun]).
Proof.
  intros p config w storage Hpin Hload Hrun Hcold.
  apply esp_ok_true in Hload, Hrun.
  split.
  - unfold Ulp.start. rewrite Hload, Hpin. cbn [negb]. run_m. rewrite Hrun.
    cbn [negb]. eexists. split; [reflexivity|]. cbn [mem trace]. split.
    + destruct (mem w); reflexivity.
    + trace_assoc. reflexivity.
  - unfold Legacy.pulse_counter_setup. rewrite Hcold, Z.eqb_refl, Hload, Hpin.
    cbn [negb]. run_m. rewrite Hrun.
    cbn [negb]. eexists. split; [reflexivity|]. cbn [mem trace]. split.
    + destruct (mem w); reflexivity.
    + trace_assoc. reflexivity.
Qed.

(** GPIO 5 of an ESP32 is no RTC I/O: the table answers -1 for it. *)
Lemma start_goes_on_after_invalid_pin_witness :
  let p := Platform ESP_OK ESP_OK (fun g => negb (g =? 5))
                    (fun g => if g =? 5 then -1 else g)
                    ESP_SLEEP_WAKEUP_UNDEFINED in
  let config := Ulp.Build_Config 5 Ulp.increment Ulp.disable 20000 3 in
  exists w',
    Ulp.start p config (World (RtcSlowMem 0 0 0 0 0 0 0) [])
      = Done (Some Ulp.UlpProgramObject) w' /\
    ulp_io_number (mem w') = 4294967295 /\
    In (LogE MustBeRtcIo) (trace w') /\
    In (RtcGpioInit 5) (trace w').
Proof.
  intros p config.
  destruct (start_goes_on_after_invalid_pin p config
              (World (RtcSlowMem 0 0 0 0 0 0 0) [])
              (Legacy.Build_UlpPulseCounterStorage Ulp.increment Ulp.disable None))
    as [(w' & Hs & Hio & Ht) _]; try reflexivity.
  exists w'. split; [exact Hs|]. split; [exact Hio|].
  rewrite Ht. cbn. tauto.
Defined.

(** ** The rate *)

(** C8. A tick sixty seconds after the previous one, with 120 edges
    counted and the low 16 bits of [run_count] zero, divides by zero
    before the rate is computed: nothing is published.  In the earlier
    revision a tick at the same millisecond as the previous one, when
    that is not zero, divides the [float] count by zero and publishes the
    infinity it gets. *)
Theorem rate_is_not_published :
  Ulp.update 1000 (Ulp.of_seconds 1000 60)
    (Ulp.Build_PulseCounterUlpSensor
       (Ulp.Build_Config 4 Ulp.increment Ulp.disable 20000 3)
       (Some Ulp.UlpProgramObject) 0 false)
    (World (RtcSlowMem 120 65536 3 3 0 4 20000) [])
  = Fault IntegerDivideByZero /\
  (exists this' w',
     Legacy.update int32_t uint32_t 5000
       (Legacy.Build_PulseCounterUlpSensor 4
          (Legacy.Build_UlpPulseCounterStorage Ulp.increment Ulp.disable (Some 4))
          5000 0 false false)
       (World (RtcSlowMem 3 0 3 3 0 4 0) [])
     = Done this' w' /\
     published (trace w') = [S754_infinity false]).
Proof.
  split.
  - vm_compute. reflexivity.
  - rewrite legacy_update_spec. do 2 eexists.
    split; [reflexivity | vm_compute; reflexivity].
Qed.

(** * Further properties of the current revision *)

(** ** [start] in full *)

(** [start] on any platform: what it returns, the memory and the trace. *)
Lemma start_spec (p : platform) (config : Ulp.Config) (w : world) :
  Ulp.start p config w =
  if esp_ok (ulp_load_binary p) then
    Done (if esp_ok (ulp_run p) then Some Ulp.UlpProgramObject else None)
         (World (started_mem p config)
                (trace w ++ [UlpLoadBinary] ++
                 (if rtc_gpio_is_valid_gpio p (Ulp.pin_ config)
                  then [] else [LogE MustBeRtcIo]) ++
                 start_events p config ++
                 (if esp_ok (ulp_run p) then []
                  else [LogE (StartingFailed (ulp_run p))])))
  else
    Done None (World (mem w)
                     (trace w ++ [UlpLoadBinary;
                                  LogE (LoadingFailed (ulp_load_binary p))])).
Proof.
  unfold Ulp.start, started_mem, start_events.
  destruct (esp_ok (ulp_load_binary p)); cbn [negb].
  - destruct (rtc_gpio_is_valid_gpio p (Ulp.pin_ config));
      destruct (esp_ok (ulp_run p)); run_m; cbn [negb mem trace];
      trace_assoc; destruct (mem w); reflexivity.
  - run_m. trace_assoc. reflexivity.
Qed.

(** When loading the binary fails, [start] stops there: it returns the
    null pointer, having written no shared variable, configured no pin
    and not called [ulp_run]; the trace holds the load and the error log
    only. *)
Theorem start_load_failure_touches_nothing :
  forall (p : platform) (config : Ulp.Config) (w : world),
    ulp_load_binary p <> ESP_OK ->
    Ulp.start p config w =
    Done None (World (mem w)
                     (trace w ++ [UlpLoadBinary;
                                  LogE (LoadingFailed (ulp_load_binary p))])).
Proof.
  intros p config w Hload. rewrite start_spec.
  apply esp_ok_false in Hload. now rewrite Hload.
Qed.

Lemma start_load_failure_touches_nothing_witness :
  let p := Platform 258 ESP_OK (fun _ => true) (fun g => g)
                    ESP_SLEEP_WAKEUP_UNDEFINED in
  let config := Ulp.Build_Config 4 Ulp.increment Ulp.disable 20000 3 in
  Ulp.start p config (World (RtcSlowMem 9 8 7 6 5 4 3) [])
  = Done None (World (RtcSlowMem 9 8 7 6 5 4 3)
                     [UlpLoadBinary; LogE (LoadingFailed 258)]).
Proof.
  intros p config.
  apply (start_load_failure_touches_nothing p config
           (World (RtcSlowMem 9 8 7 6 5 4 3) [])).
  cbn. discriminate.
Defined.

(** When the binary loads and starting the program fails, [start] returns
    the null pointer after the fact: all seven shared variables are
    assigned, the pin is configured and held and the wake-up period is
    set, and the error log is the last event. *)
Theorem start_run_failure_keeps_side_effects :
  forall (p : platform) (config : Ulp.Config) (w : world),
    ulp_load_binary p = ESP_OK ->
    ulp_run p <> ESP_OK ->
    exists w',
      Ulp.start p config w = Done None w' /\
      mem w' = started_mem p config /\
      trace w' =
        trace w ++ [UlpLoadBinary] ++
        (if rtc_gpio_is_valid_gpio p (Ulp.pin_ config)
         then [] else [LogE MustBeRtcIo]) ++
        start_events p config ++ [LogE (StartingFailed (ulp_run p))].
Proof.
  intros p config w Hload Hrun. rewrite start_spec.
  apply esp_ok_true in Hload. apply esp_ok_false in Hrun.
  rewrite Hload, Hrun. eexists. repeat split.
Qed.

Lemma start_run_failure_keeps_side_effects_witness :
  let p := Platform ESP_OK 259 (fun _ => true) (fun g => g)
                    ESP_SLEEP_WAKEUP_UNDEFINED in
  let config := Ulp.Build_Config 4 Ulp.increment Ulp.disable 20000 3 in
  exists w',
    Ulp.start p config (World (RtcSlowMem 9 8 7 6 5 4 3) []) = Done None w' /\
    mem w' = RtcSlowMem 0 0 3 3 0 4 20000 /\
    In (RtcGpioHoldEn 4) (trace w') /\
    In (UlpSetWakeupPeriod 20000) (trace w').
Proof.
  intros p config.
  destruct (start_run_failure_keeps_side_effects p config
              (World (RtcSlowMem 9 8 7 6 5 4 3) []))
    as (w' & Hs & Hm & Ht).
  - reflexivity.
  - cbn. discriminate.
  - exists w'. split; [exact Hs|]. split; [exact Hm|].
    rewrite Ht. cbn. tauto.
Defined.


(** A drain right after a successful [start] returns no edge, no run,
    and the low 16 bits of the sleep duration as the estimate. *)
Theorem start_then_pop_state :
  forall (p : platform) (config : Ulp.Config) (w : world),
    ulp_load_binary p = ESP_OK ->
    ulp_run p = ESP_OK ->
    exists w',
      (h <- Ulp.start p config ;;
       match h with
       | Some h => s <- Ulp.pop_state h ;; ret (Some s)
       | None => ret None
       end) w
      = Done (Some {| Ulp.edge_count := 0; Ulp.run_count := 0;
                      Ulp.mean_exec_time :=
                        to_uint16 (Ulp.sleep_duration_ config) |}) w' /\
      mem w' = started_mem p config.
Proof.
  intros p config w Hload Hrun.
  apply esp_ok_true in Hload, Hrun.
  unfold bind at 1. rewrite start_spec, Hload, Hrun.
  unfold bind at 1. rewrite pop_state_spec. unfold ret.
  cbn [mem trace started_mem ulp_edge_count ulp_run_count ulp_mean_exec_time].
  rewrite to_uint16_of_uint32.
  eexists. split; reflexivity.
Qed.

Lemma start_then_pop_state_witness :
  let p := Platform ESP_OK ESP_OK (fun _ => true) (fun g => g)
                    ESP_SLEEP_WAKEUP_UNDEFINED in
  let config := Ulp.Build_Config 4 Ulp.increment Ulp.disable 100000 3 in
  exists w',
    (h <- Ulp.start p config ;;
     match h with
     | Some h => s <- Ulp.pop_state h ;; ret (Some s)
     | None => ret None
     end) (World (RtcSlowMem 9 8 7 6 5 4 3) [])
    = Done (Some {| Ulp.edge_count := 0; Ulp.run_count := 0;
                    Ulp.mean_exec_time := 34464 |}) w'.
Proof.
  intros p config.
  destruct (start_then_pop_state p config (World (RtcSlowMem 9 8 7 6 5 4 3) []))
    as (w' & Hs & _); try reflexivity.
  exists w'. exact Hs.
Defined.

(** ** Reading and writing the estimate *)

(** What [set_mean_exec_time] stores is what [peek_state] reads back: the
    duration modulo 2^16, the duration itself when it is below 65536
    microseconds and not negative; the counts read are not affected. *)
Theorem set_mean_exec_time_then_peek_state :
  forall (h : Ulp.UlpProgram) (duration : Z) (w : world),
  exists st w',
    (Ulp.set_mean_exec_time h duration ;; Ulp.peek_state h) w = Done st w' /\
    Ulp.mean_exec_time st = duration mod 2 ^ 16 /\
    (0 <= duration < 65536 -> Ulp.mean_exec_time st = duration) /\
    Ulp.edge_count st = to_uint16 (ulp_edge_count (mem w)) /\
    Ulp.run_count st = to_uint16 (ulp_run_count (mem w)).
Proof.
  intros h d w. unfold bind at 1.
  rewrite set_mean_exec_time_spec, peek_state_spec.
  do 2 eexists. split; [reflexivity|].
  cbn [mem Ulp.mean_exec_time Ulp.edge_count Ulp.run_count].
  assert (E : ulp_mean_exec_time (store MeanExecTime (to_uint16 d) (mem w))
              = to_uint16 d).
  { change (ulp_mean_exec_time ?m) with (load MeanExecTime m).
    rewrite load_store_same. apply to_uint32_of_uint16. }
  rewrite E.
  assert (E2 : to_uint16 (to_uint16 d) = to_uint16 d)
    by (apply to_uint16_small, to_uint16_range).
  rewrite E2. repeat split.
  - intros Hd. now apply to_uint16_small.
  - destruct (mem w); reflexivity.
  - destruct (mem w); reflexivity.
Qed.

(** [peek_state] disturbs nothing: a drain that follows it returns the
    state the peek returned, and leaves the memory a drain alone leaves. *)
Theorem peek_state_then_pop_state :
  forall (h : Ulp.UlpProgram) (w : world),
  exists st w1 w2 w3,
    Ulp.peek_state h w = Done st w1 /\
    Ulp.pop_state h w1 = Done st w2 /\
    Ulp.pop_state h w = Done st w3 /\
    mem w2 = mem w3.
Proof.
  intros h w. rewrite peek_state_spec. do 4 eexists.
  split; [reflexivity|]. rewrite !pop_state_spec. cbn [mem trace].
  repeat split.
Qed.

(** ** A tick in every case *)

(** [update] stops at undefined behaviour in one case only: the sensor
    has a program, the clock reading differs from [last_time_], and the
    low 16 bits of [run_count] are zero.  In every other case it
    returns. *)
Theorem update_faults_only_on_zero_run_count :
  forall (tpu : positive) (now : Z) (this : Ulp.PulseCounterUlpSensor)
         (w : world),
    (exists f, Ulp.update tpu now this w = Fault f) <->
    (Ulp.storage_ this <> None /\
     now - Ulp.last_time_ this <> 0 /\
     to_uint16 (ulp_run_count (mem w)) = 0).
Proof.
  intros tpu now this w.
  destruct (Ulp.storage_ this) as [h |] eqn:Hprog.
  - rewrite (update_with_program tpu now this w h Hprog). cbv zeta.
    destruct (Z.eqb_spec (now - Ulp.last_time_ this) 0) as [Hi | Hi].
    + split; [intros [f Hf]; discriminate | intros (_ & H & _); contradiction].
    + destruct (Z.eqb_spec (to_uint16 (ulp_run_count (mem w))) 0) as [Hr | Hr].
      * split; [intros _; repeat split; [discriminate | assumption ..]
               | intros _; now exists IntegerDivideByZero].
      * split; [intros [f Hf]; discriminate | intros (_ & _ & H); contradiction].
  - rewrite update_without_program by assumption.
    split; [intros [f Hf]; discriminate | intros (H & _); contradiction].
Qed.

(** Whenever a tick of a sensor with a program returns, [last_time_] is
    the clock reading and nothing else of the sensor has changed; both
    counters are zero in memory; the variables other than [edge_count],
    [run_count] and [mean_exec_time] are as they were; and at most one
    value was published. *)
Theorem update_postconditions :
  forall (tpu : positive) (now : Z) (this this' : Ulp.PulseCounterUlpSensor)
         (w w' : world) (h : Ulp.UlpProgram),
    Ulp.storage_ this = Some h ->
    Ulp.update tpu now this w = Done this' w' ->
    this' = Ulp.with_last_time this now /\
    ulp_edge_count (mem w') = 0 /\
    ulp_run_count (mem w') = 0 /\
    (forall v, v <> EdgeCount -> v <> RunCount -> v <> MeanExecTime ->
               load v (mem w') = load v (mem w)) /\
    (length (published (trace w')) <= length (published (trace w)) + 1)%nat.
Proof.
  intros tpu now this this' w w' h Hprog.
  rewrite (update_with_program tpu now this w h Hprog). cbv zeta.
  destruct (now - Ulp.last_time_ this =? 0).
  - intros H. injection H as <- <-. cbn [mem trace]. repeat split.
    + destruct (mem w); reflexivity.
    + destruct (mem w); reflexivity.
    + intros v H1 H2 _. unfold drained_mem.
      now rewrite !load_store_other by congruence.
    + rewrite published_app. cbn. rewrite app_nil_r. lia.
  - destruct (to_uint16 (ulp_run_count (mem w)) =? 0); [discriminate|].
    intros H. injection H as <- <-. cbn [mem trace]. repeat split.
    + destruct (mem w); reflexivity.
    + destruct (mem w); reflexivity.
    + intros v H1 H2 H3. unfold drained_mem.
      now rewrite !load_store_other by congruence.
    + rewrite !published_app, !length_app. cbn. lia.
Qed.

Lemma update_postconditions_witness :
  let config := Ulp.Build_Config 4 Ulp.increment Ulp.disable 20000 3 in
  let this := Ulp.Build_PulseCounterUlpSensor config (Some Ulp.UlpProgramObject)
                5 false in
  exists this' w',
    Ulp.update 1000 60000000005 this (World (RtcSlowMem 120 3000 2 3 1 4 7) [])
      = Done this' w' /\
    Ulp.last_time_ this' = 60000000005 /\
    ulp_edge_count (mem w') = 0 /\
    ulp_run_count (mem w') = 0.
Proof.
  intros config this.
  eassert (Hu : Ulp.update 1000 60000000005 this
                  (World (RtcSlowMem 120 3000 2 3 1 4 7) []) = Done _ _)
    by (vm_compute; reflexivity).
  destruct (update_postconditions 1000 60000000005 this _ _ _
              Ulp.UlpProgramObject eq_refl Hu) as (Ht & He & Hr & _).
  do 2 eexists. split; [exact Hu|]. repeat split; assumption.
Defined.

(** ** The estimate as a number *)

Lemma estimate_is_floor (tpu : positive) (interval runs : Z) :
  0 <= interval -> 0 < runs ->
  Z.quot (Z.quot interval runs) (Zpos tpu) = interval / (runs * Zpos tpu).
Proof.
  intros Hi Hr.
  rewrite (Z.quot_div_nonneg interval runs) by lia.
  rewrite Z.quot_div_nonneg by (try apply Z.div_pos; lia).
  apply Z.div_div; lia.
Qed.

(** For a positive interval shorter than 65536 microseconds per run, the
    estimate a tick stores is the interval per run rounded down to whole
    microseconds: [run_count] times the estimate is at most the interval
    and falls short of it by less than [run_count] microseconds. *)
Theorem mean_exec_time_estimate_bounds :
  forall (tpu : positive) (now : Z) (this : Ulp.PulseCounterUlpSensor)
         (w : world) (h : Ulp.UlpProgram),
    Ulp.storage_ this = Some h ->
    0 < now - Ulp.last_time_ this ->
    to_uint16 (ulp_run_count (mem w)) <> 0 ->
    now - Ulp.last_time_ this
      < Ulp.of_microseconds tpu (65536 * to_uint16 (ulp_run_count (mem w))) ->
    exists w',
      Ulp.update tpu now this w = Done (Ulp.with_last_time this now) w' /\
      ulp_mean_exec_time (mem w') =
        (now - Ulp.last_time_ this)
        / (to_uint16 (ulp_run_count (mem w)) * Zpos tpu) /\
      Ulp.of_microseconds tpu
        (to_uint16 (ulp_run_count (mem w)) * ulp_mean_exec_time (mem w'))
        <= now - Ulp.last_time_ this
        < Ulp.of_microseconds tpu
            (to_uint16 (ulp_run_count (mem w)) * (ulp_mean_exec_time (mem w') + 1)).
Proof.
  intros tpu now this w h Hprog Hpos Hruns Hshort.
  destruct (update_sets_mean_exec_time tpu now this w h Hprog) as (w' & Hu & Hm & _);
    [lia | assumption |].
  exists w'. split; [exact Hu|].
  pose proof (to_uint16_range (ulp_run_count (mem w))) as Hr.
  set (runs := to_uint16 (ulp_run_count (mem w))) in *.
  set (interval := now - Ulp.last_time_ this) in *.
  unfold Ulp.of_microseconds in *.
  rewrite estimate_is_floor in Hm by lia.
  assert (Hd : 0 < runs * Zpos tpu) by lia.
  assert (Hq : 0 <= interval / (runs * Zpos tpu) < 65536).
  { split; [apply Z.div_pos; lia|].
    apply Z.div_lt_upper_bound; lia. }
  rewrite to_uint16_small in Hm by exact Hq.
  rewrite Hm. split; [reflexivity|].
  pose proof (Z.mul_div_le interval (runs * Zpos tpu) Hd).
  pose proof (Z.mul_succ_div_gt interval (runs * Zpos tpu) Hd).
  lia.
Qed.

(** One minute on a nanosecond clock with 2999 runs: 20006 microseconds
    per run, rounded down. *)
Lemma mean_exec_time_estimate_bounds_witness :
  let config := Ulp.Build_Config 4 Ulp.increment Ulp.disable 20000 3 in
  let this := Ulp.Build_PulseCounterUlpSensor config (Some Ulp.UlpProgramObject)
                5 false in
  exists w',
    Ulp.update 1000 60000000005 this (World (RtcSlowMem 120 2999 2 3 1 4 7) [])
      = Done (Ulp.with_last_time this 60000000005) w' /\
    ulp_mean_exec_time (mem w') = 20006.
Proof.
  intros config this.
  destruct (mean_exec_time_estimate_bounds 1000 60000000005 this
              (World (RtcSlowMem 120 2999 2 3 1 4 7) []) Ulp.UlpProgramObject)
    as (w' & Hu & Hm & _).
  - reflexivity.
  - cbn. lia.
  - cbn. discriminate.
  - vm_compute. reflexivity.
  - exists w'. split; [exact Hu|]. rewrite Hm. reflexivity.
Defined.

(** ** [setup] in every case *)

Lemma setup_cold (tpu : positive) (p : platform) (now : Z)
    (this : Ulp.PulseCounterUlpSensor) (w : world) :
  esp_sleep_get_wakeup_cause p = ESP_SLEEP_WAKEUP_UNDEFINED ->
  exists w',
    Ulp.start p (Ulp.config_ this) (World (mem w) (trace w ++ [PinSetup]))
      = Done (if esp_ok (ulp_load_binary p) && esp_ok (ulp_run p)
              then Some Ulp.UlpProgramObject else None) w' /\
    Ulp.setup tpu p now this w =
      Done (if esp_ok (ulp_load_binary p) && esp_ok (ulp_run p)
            then Ulp.with_storage this (Some Ulp.UlpProgramObject)
            else Ulp.mark_failed (Ulp.with_storage this None)) w'.
Proof.
  intros Hcold. unfold Ulp.setup. rewrite Hcold, Z.eqb_refl.
  unfold bind at 1. unfold emit at 1.
  unfold bind at 1. unfold bind at 1. rewrite start_spec.
  destruct (esp_ok (ulp_load_binary p)); cbn [andb].
  - destruct (esp_ok (ulp_run p)); eexists; split; reflexivity.
  - eexists; split; reflexivity.
Qed.

(** [setup] always returns.  It leaves the sensor without a program
    exactly when the boot is not a wake-up from sleep and loading or
    starting the program fails, and it marks the sensor failed exactly
    then (a mark already set stays): after a wake-up a program object is
    attached whatever the platform would answer. *)
Theorem setup_marks_failed_iff :
  forall (tpu : positive) (p : platform) (now : Z)
         (this : Ulp.PulseCounterUlpSensor) (w : world),
  exists this' w',
    Ulp.setup tpu p now this w = Done this' w' /\
    (Ulp.storage_ this' = None <->
     esp_sleep_get_wakeup_cause p = ESP_SLEEP_WAKEUP_UNDEFINED /\
     (ulp_load_binary p <> ESP_OK \/ ulp_run p <> ESP_OK)) /\
    (Ulp.failed_ this' = true <->
     Ulp.failed_ this = true \/ Ulp.storage_ this' = None) /\
    Ulp.config_ this' = Ulp.config_ this.
Proof.
  intros tpu p now this w.
  destruct (Z.eq_dec (esp_sleep_get_wakeup_cause p) ESP_SLEEP_WAKEUP_UNDEFINED)
    as [Hcold | Hwake].
  - destruct (setup_cold tpu p now this w Hcold) as (w' & _ & Hs).
    rewrite Hs. do 2 eexists. split; [reflexivity|].
    rewrite <- !esp_ok_false.
    destruct (esp_ok (ulp_load_binary p)), (esp_ok (ulp_run p));
      cbn [andb Ulp.storage_ Ulp.failed_ Ulp.config_ Ulp.with_storage Ulp.mark_failed];
      repeat split; try tauto; try congruence;
      try (intros [_ [H | H]]; congruence);
      try (intros [H | H]; congruence).
  - rewrite (setup_after_wake tpu p now this w Hwake).
    do 2 eexists. split; [reflexivity|].
    cbn [Ulp.storage_ Ulp.failed_ Ulp.config_ Ulp.with_storage Ulp.with_last_time].
    repeat split; try tauto; try congruence.
    intros [H | H]; congruence.
Qed.

(** On a boot that is not a wake-up, with the program loaded and started,
    [setup] attaches the program and leaves [last_time_] as it was: the
    clock is not read, so the result is the same for every clock
    reading, and the first tick measures its interval from the
    [last_time_] the sensor was built with. *)
Theorem setup_cold_start_leaves_last_time :
  forall (tpu : positive) (p : platform) (now : Z)
         (this : Ulp.PulseCounterUlpSensor) (w : world),
    esp_sleep_get_wakeup_cause p = ESP_SLEEP_WAKEUP_UNDEFINED ->
    ulp_load_binary p = ESP_OK ->
    ulp_run p = ESP_OK ->
    exists w',
      Ulp.setup tpu p now this w =
        Done (Ulp.with_storage this (Some Ulp.UlpProgramObject)) w' /\
      mem w' = started_mem p (Ulp.config_ this) /\
      published (trace w') = published (trace w) /\
      forall now', Ulp.setup tpu p now' this w = Ulp.setup tpu p now this w.
Proof.
  intros tpu p now this w Hcold Hload Hrun.
  apply esp_ok_true in Hload, Hrun.
  destruct (setup_cold tpu p now this w Hcold) as (w' & Hst & Hs).
  rewrite Hload, Hrun in Hs, Hst. cbn [andb] in Hs, Hst.
  exists w'. split; [exact Hs|].
  rewrite start_spec, Hload, Hrun in Hst. injection Hst as <-.
  cbn [mem trace]. split; [reflexivity|]. split.
  - rewrite !published_app.
    destruct (rtc_gpio_is_valid_gpio p (Ulp.pin_ (Ulp.config_ this)));
      cbn; now rewrite ?app_nil_r.
  - intros now'. unfold Ulp.setup. now rewrite Hcold, Z.eqb_refl.
Qed.

Lemma setup_cold_start_leaves_last_time_witness :
  let p := Platform ESP_OK ESP_OK (fun _ => true) (fun g => g)
                    ESP_SLEEP_WAKEUP_UNDEFINED in
  let config := Ulp.Build_Config 4 Ulp.increment Ulp.disable 20000 3 in
  exists this' w',
    Ulp.setup 1000 p 123456789 (Ulp.new_sensor config)
              (World (RtcSlowMem 9 8 7 6 5 4 3) []) = Done this' w' /\
    Ulp.last_time_ this' = 0 /\
    Ulp.storage_ this' = Some Ulp.UlpProgramObject /\
    mem w' = RtcSlowMem 0 0 3 3 0 4 20000.
Proof.
  intros p config.
  destruct (setup_cold_start_leaves_last_time 1000 p 123456789
              (Ulp.new_sensor config) (World (RtcSlowMem 9 8 7 6 5 4 3) []))
    as (w' & Hs & Hm & _); try reflexivity.
  do 2 eexists. split; [exact Hs|]. repeat split. exact Hm.
Defined.

(** ** After a wake-up *)

(** The time by which a wake-up backdates [last_time_] is never negative
    and never more than 65535 runs of 65535 microseconds, some 71
    minutes, however long the sleep was. *)
Theorem setup_after_wake_backdates_at_most :
  forall (tpu : positive) (p : platform) (now : Z)
         (this : Ulp.PulseCounterUlpSensor) (w : world),
    esp_sleep_get_wakeup_cause p <> ESP_SLEEP_WAKEUP_UNDEFINED ->
    exists this' w',
      Ulp.setup tpu p now this w = Done this' w' /\
      now - Ulp.of_microseconds tpu (65535 * 65535)
        <= Ulp.last_time_ this' <= now.
Proof.
  intros tpu p now this w Hwake.
  rewrite (setup_after_wake tpu p now this w Hwake).
  do 2 eexists. split; [reflexivity|].
  cbn [Ulp.last_time_ Ulp.with_last_time]. unfold Ulp.of_microseconds.
  pose proof (to_uint16_range (ulp_run_count (mem w))) as Hr.
  pose proof (to_uint16_range (ulp_mean_exec_time (mem w))) as Hm.
  set (runs := to_uint16 (ulp_run_count (mem w))) in *.
  set (met := to_uint16 (ulp_mean_exec_time (mem w))) in *.
  assert (Hprod : 0 <= runs * met <= 65535 * 65535) by nia.
  assert (Hlow : 0 <= Zpos tpu * (runs * met)) by (apply Z.mul_nonneg_nonneg; lia).
  assert (Hup : Zpos tpu * (runs * met) <= Zpos tpu * (65535 * 65535))
    by (apply Z.mul_le_mono_nonneg_l; lia).
  lia.
Qed.

Lemma setup_after_wake_backdates_at_most_witness :
  let p := Platform ESP_OK ESP_OK (fun _ => true) (fun g => g) 4 in
  let this := Ulp.new_sensor (Ulp.Build_Config 4 Ulp.increment Ulp.disable 20000 3) in
  exists this' w',
    Ulp.setup 1000 p 5000000000000 this
              (World (RtcSlowMem 7 4294967295 0 3 0 4 4294967295) [])
      = Done this' w' /\
    705163775000 <= Ulp.last_time_ this' <= 5000000000000.
Proof.
  intros p this.
  destruct (setup_after_wake_backdates_at_most 1000 p 5000000000000 this
              (World (RtcSlowMem 7 4294967295 0 3 0 4 4294967295) []))
    as (this' & w' & Hs & Hb).
  - cbn. discriminate.
  - exists this', w'. split; [exact Hs|]. exact Hb.
Defined.

(** A tick at the clock reading of a wake-up [setup], with no coprocessor
    activity in between, always returns: its interval is the backdated
    time, [run_count] times [mean_exec_time], which is not zero only if
    [run_count] is not.  It publishes a rate over that time when it is
    not zero, and the estimate it leaves reads back as before. *)
Theorem tick_right_after_wake_keeps_estimate :
  forall (tpu : positive) (p : platform) (now : Z)
         (this : Ulp.PulseCounterUlpSensor) (w : world),
    esp_sleep_get_wakeup_cause p <> ESP_SLEEP_WAKEUP_UNDEFINED ->
    exists this' w',
      (this1 <- Ulp.setup tpu p now this ;; Ulp.update tpu now this1) w
        = Done this' w' /\
      Ulp.last_time_ this' = now /\
      to_uint16 (ulp_mean_exec_time (mem w')) =
        to_uint16 (ulp_mean_exec_time (mem w)) /\
      published (trace w') =
        published (trace w) ++
        (if to_uint16 (ulp_run_count (mem w)) *
            to_uint16 (ulp_mean_exec_time (mem w)) =? 0
         then []
         else [Ulp.pulses_per_minute tpu
                 (to_uint16 (ulp_edge_count (mem w)))
                 (Ulp.of_microseconds tpu
                    (to_uint16 (ulp_run_count (mem w)) *
                     to_uint16 (ulp_mean_exec_time (mem w))))]).
Proof.
  intros tpu p now this w Hwake.
  unfold bind at 1. rewrite (setup_after_wake tpu p now this w Hwake).
  erewrite (update_with_program tpu now _ _ Ulp.UlpProgramObject) by reflexivity.
  cbv zeta. cbn [Ulp.last_time_ Ulp.with_last_time Ulp.with_storage mem trace].
  pose proof (to_uint16_range (ulp_run_count (mem w))) as Hr.
  pose proof (to_uint16_range (ulp_mean_exec_time (mem w))) as Hm.
  set (runs := to_uint16 (ulp_run_count (mem w))) in *.
  set (met := to_uint16 (ulp_mean_exec_time (mem w))) in *.
  unfold Ulp.of_microseconds.
  replace (now - (now - Zpos tpu * (runs * met))) with (Zpos tpu * (runs * met)) by lia.
  destruct (Z.eqb_spec (runs * met) 0) as [Hz | Hz].
  - rewrite Hz, Z.mul_0_r. cbn [Z.eqb].
    do 2 eexists. split; [reflexivity|]. cbn [Ulp.last_time_ mem trace].
    split; [reflexivity|]. split.
    + destruct (mem w); reflexivity.
    + rewrite !published_app. cbn. now rewrite !app_nil_r.
  - destruct (Z.eqb_spec (Zpos tpu * (runs * met)) 0) as [Hx | Hx]; [lia|].
    destruct (Z.eqb_spec runs 0) as [Hr0 | Hr0]; [subst runs; lia|].
    do 2 eexists. split; [reflexivity|]. cbn [Ulp.last_time_ mem trace].
    split; [reflexivity|]. split.
    + change (ulp_mean_exec_time ?m) with (load MeanExecTime m) at 1.
      rewrite load_store_same, to_uint32_of_uint16.
      replace (Zpos tpu * (runs * met)) with (Zpos tpu * met * runs) by lia.
      rewrite Z.quot_mul by assumption.
      rewrite (Z.mul_comm (Zpos tpu) met), Z.quot_mul by lia.
      rewrite (to_uint16_small met Hm).
      apply to_uint16_small, Hm.
    + rewrite !published_app. cbn. now rewrite ?app_nil_r, <- ?app_assoc.
Qed.

(** A wake-up with 50 runs of 20 ms and 7 edges in the variables: the
    tick that follows at once publishes one rate and leaves 20000. *)
Lemma tick_right_after_wake_keeps_estimate_witness :
  let p := Platform ESP_OK ESP_OK (fun _ => true) (fun g => g) 4 in
  let this := Ulp.new_sensor (Ulp.Build_Config 4 Ulp.increment Ulp.disable 20000 3) in
  exists this' w',
    (this1 <- Ulp.setup 1000 p 5000000000 this ;; Ulp.update 1000 5000000000 this1)
      (World (RtcSlowMem 7 50 0 3 0 4 20000) [])
      = Done this' w' /\
    Ulp.last_time_ this' = 5000000000 /\
    to_uint16 (ulp_mean_exec_time (mem w')) = 20000 /\
    length (published (trace w')) = 1%nat.
Proof.
  intros p this.
  destruct (tick_right_after_wake_keeps_estimate 1000 p 5000000000 this
              (World (RtcSlowMem 7 50 0 3 0 4 20000) []))
    as (this' & w' & Hs & Hl & Hm & Hp).
  - cbn. discriminate.
  - exists this', w'. split; [exact Hs|]. split; [exact Hl|].
    split; [rewrite Hm; reflexivity|]. rewrite Hp. reflexivity.
Defined.

(** ** A series of ticks *)

Lemma last_cons {A : Type} (l : list A) :
  forall a d : A, last (a :: l) d = last l a.
Proof.
  induction l as [| b l IH]; intros a d; [reflexivity|].
  change (last (a :: b :: l) d) with (last (b :: l) d).
  now rewrite !IH.
Qed.

(** Starting from a run count of zero, which is what every drain leaves:
    if before every tick the coprocessor brings the low 16 bits of the
    run count away from zero, a sensor with a program gets through any
    series of ticks.  [last_time_] ends as the last clock reading,
    nothing else of the sensor changes, and one rate is published for
    each tick whose clock reading differs from the one before. *)
Theorem run_ticks_completes_when_coprocessor_runs :
  forall (tpu : positive) (ts : list Ulp.tick)
         (this : Ulp.PulseCounterUlpSensor) (w : world) (h : Ulp.UlpProgram),
    Ulp.storage_ this = Some h ->
    ulp_run_count (mem w) = 0 ->
    Forall (fun t => forall m, ulp_run_count m = 0 ->
                               to_uint16 (ulp_run_count (Ulp.aux t m)) <> 0) ts ->
    exists w',
      Ulp.run_ticks tpu ts this w =
        Done (Ulp.with_last_time this
                (last (map Ulp.now ts) (Ulp.last_time_ this))) w' /\
      length (published (trace w')) =
        (length (published (trace w)) +
         fresh_readings (Ulp.last_time_ this) (map Ulp.now ts))%nat.
Proof.
  intros tpu ts. induction ts as [| t ts IH]; intros this w h Hprog Hzero Hruns.
  - exists w. cbn. split; [destruct this; cbn in *; reflexivity | lia].
  - inversion Hruns as [| ? ? Ht Hts]; subst.
    cbn [Ulp.run_ticks map fresh_readings].
    unfold bind at 1. unfold aux_activity at 1. unfold bind at 1.
    rewrite (update_with_program tpu (Ulp.now t) this _ h Hprog). cbv zeta.
    cbn [mem trace]. rewrite last_cons.
    specialize (Ht (mem w) Hzero). apply Z.eqb_neq in Ht. rewrite Ht.
    destruct (Z.eqb_spec (Ulp.now t - Ulp.last_time_ this) 0) as [Hi | Hi].
    + match goal with
      | |- context [Ulp.run_ticks tpu ts ?s ?v] =>
          destruct (IH s v h Hprog) as (w' & Hrun & Hlen);
            [cbn [mem]; destruct (Ulp.aux t (mem w)); reflexivity | exact Hts |]
      end.
      exists w'. split; [exact Hrun|].
      rewrite Hlen. cbn [trace Ulp.last_time_ Ulp.with_last_time].
      rewrite published_app. cbn [published flat_map drain_events app].
      rewrite app_nil_r.
      destruct (Z.eqb_spec (Ulp.now t) (Ulp.last_time_ this)); [reflexivity | lia].
    + match goal with
      | |- context [Ulp.run_ticks tpu ts ?s ?v] =>
          destruct (IH s v h Hprog) as (w' & Hrun & Hlen);
            [cbn [mem]; destruct (Ulp.aux t (mem w)); reflexivity | exact Hts |]
      end.
      exists w'. split; [exact Hrun|].
      rewrite Hlen. cbn [trace Ulp.last_time_ Ulp.with_last_time].
      rewrite !published_app, !length_app.
      cbn [published flat_map drain_events app length].
      destruct (Z.eqb_spec (Ulp.now t) (Ulp.last_time_ this)); lia.
Qed.

(** Three ticks, the second at the clock reading of the first. *)
Lemma run_ticks_completes_when_coprocessor_runs_witness :
  let config := Ulp.Build_Config 4 Ulp.increment Ulp.disable 20000 3 in
  let this := Ulp.Build_PulseCounterUlpSensor config (Some Ulp.UlpProgramObject)
                0 false in
  let runs n := fun m => store RunCount (ulp_run_count m + n) m in
  let ts := [Ulp.Tick (runs 3000) 60000000000; Ulp.Tick (runs 1) 60000000000;
             Ulp.Tick (runs 3000) 120000000000] in
  exists this' w',
    Ulp.run_ticks 1000 ts this (World (RtcSlowMem 0 0 3 3 0 4 20000) [])
      = Done this' w' /\
    Ulp.last_time_ this' = 120000000000 /\
    length (published (trace w')) = 2%nat.
Proof.
  intros config this runs ts.
  destruct (run_ticks_completes_when_coprocessor_runs 1000 ts this
              (World (RtcSlowMem 0 0 3 3 0 4 20000) []) Ulp.UlpProgramObject)
    as (w' & Hrun & Hlen).
  - reflexivity.
  - reflexivity.
  - repeat constructor; intros m Hm; destruct m; cbn in *; subst;
      cbn; discriminate.
  - do 2 eexists. split; [exact Hrun|]. split; [reflexivity|].
    rewrite Hlen. reflexivity.
Defined.

(** * Further properties of the earlier revision *)

(** ** [pulse_counter_setup] and [setup] *)

Lemma pulse_counter_setup_spec (p : platform) (pin : Z)
    (this : Legacy.UlpPulseCounterStorage) (w : world) :
  Legacy.pulse_counter_setup p pin this w =
  if esp_sleep_get_wakeup_cause p =? ESP_SLEEP_WAKEUP_UNDEFINED then
    if esp_ok (ulp_load_binary p) then
      Done (esp_ok (ulp_run p), Legacy.with_pin this pin)
           (World (legacy_started_mem p pin (mem w))
                  (trace w ++ [PinSetup; UlpLoadBinary] ++
                   (if rtc_gpio_is_valid_gpio p pin then [] else [LogE MustBeRtcIo]) ++
                   legacy_start_events p pin ++
                   (if esp_ok (ulp_run p) then []
                    else [LogE (StartingFailed (ulp_run p))])))
    else
      Done (false, Legacy.with_pin this pin)
           (World (mem w)
                  (trace w ++ [PinSetup; UlpLoadBinary;
                               LogE (LoadingFailed (ulp_load_binary p))]))
  else
    Done (true, Legacy.with_pin this pin) (World (mem w) (trace w ++ [PinSetup])).
Proof.
  unfold Legacy.pulse_counter_setup, legacy_started_mem, legacy_start_events.
  destruct (esp_sleep_get_wakeup_cause p =? ESP_SLEEP_WAKEUP_UNDEFINED).
  - destruct (esp_ok (ulp_load_binary p)); cbn [negb].
    + destruct (rtc_gpio_is_valid_gpio p pin);
        destruct (esp_ok (ulp_run p)); run_m; cbn [negb mem trace];
        trace_assoc; destruct (mem w); reflexivity.
    + run_m. trace_assoc. reflexivity.
  - run_m. reflexivity.
Qed.

(** [setup] of the earlier revision always returns and records the pin.
    It marks the sensor failed exactly when the boot is not a wake-up
    from sleep and loading or starting the program fails (a mark already
    set stays); [last_time_] and the total are left alone.  After a
    wake-up it touches no shared variable and calls nothing but the
    pin's own set-up. *)
Theorem legacy_setup_marks_failed_iff :
  forall (p : platform) (this : Legacy.PulseCounterUlpSensor) (w : world),
  exists this' w',
    Legacy.setup p this w = Done this' w' /\
    (Legacy.failed_ this' = true <->
     Legacy.failed_ this = true \/
     (esp_sleep_get_wakeup_cause p = ESP_SLEEP_WAKEUP_UNDEFINED /\
      (ulp_load_binary p <> ESP_OK \/ ulp_run p <> ESP_OK))) /\
    Legacy.pin (Legacy.storage_ this') = Some (Legacy.pin_ this) /\
    Legacy.last_time_ this' = Legacy.last_time_ this /\
    Legacy.current_total_ this' = Legacy.current_total_ this /\
    (esp_sleep_get_wakeup_cause p <> ESP_SLEEP_WAKEUP_UNDEFINED ->
     mem w' = mem w /\ trace w' = trace w ++ [PinSetup]).
Proof.
  intros p this w. unfold Legacy.setup. unfold bind at 1.
  rewrite pulse_counter_setup_spec.
  destruct (Z.eqb_spec (esp_sleep_get_wakeup_cause p) ESP_SLEEP_WAKEUP_UNDEFINED)
    as [Hcold | Hwake].
  - pose proof (esp_ok_true (ulp_load_binary p)) as Hlt.
    pose proof (esp_ok_false (ulp_load_binary p)) as Hlf.
    pose proof (esp_ok_true (ulp_run p)) as Hrt.
    pose proof (esp_ok_false (ulp_run p)) as Hrf.
    destruct (esp_ok (ulp_load_binary p));
      [destruct (esp_ok (ulp_run p))|];
      cbn [fst snd negb]; unfold ret; do 2 eexists; (split; [reflexivity|]);
      cbn [Legacy.failed_ Legacy.storage_ Legacy.pin Legacy.last_time_
           Legacy.current_total_ Legacy.mark_failed Legacy.with_storage
           Legacy.with_pin];
      repeat split; tauto.
  - cbn [fst snd negb]. unfold ret. do 2 eexists. split; [reflexivity|].
    cbn [Legacy.failed_ Legacy.storage_ Legacy.pin Legacy.last_time_
         Legacy.current_total_ Legacy.with_storage Legacy.with_pin mem trace].
    repeat split; tauto.
Qed.

(** ** The rate of the earlier revision *)

(** Dividing by a zero gives no finite number. *)
Lemma div_by_zero_not_finite (x : Float32.float) (s : bool) :
  Float32.div x (S754_zero s) = S754_nan \/
  exists s', Float32.div x (S754_zero s) = S754_infinity s'.
Proof. destruct x; cbn; eauto. Qed.

(** A tick of the earlier revision at the millisecond of the previous
    one, when that is not zero, publishes a rate all the same, and the
    rate is an infinity or not a number. *)
Theorem legacy_zero_interval_publishes_non_finite :
  forall (pc ts : int_type) (millis : Z)
         (this : Legacy.PulseCounterUlpSensor) (w : world),
    Legacy.last_time_ this <> 0 ->
    int_cast ts millis = Legacy.last_time_ this ->
    exists this' w' rate,
      Legacy.update pc ts millis this w = Done this' w' /\
      published (trace w') = published (trace w) ++ [rate] /\
      (rate = S754_nan \/ exists s, rate = S754_infinity s).
Proof.
  intros pc ts millis this w Hlast Hsame.
  rewrite legacy_update_spec. cbv zeta.
  apply Z.eqb_neq in Hlast. rewrite Hlast, Hsame, Z.sub_diag, int_cast_zero.
  cbn [negb]. do 3 eexists. split; [reflexivity|]. cbn [trace]. split.
  - rewrite !published_app.
    destruct (Legacy.total_sensor_ this); cbn; reflexivity.
  - apply div_by_zero_not_finite.
Qed.

Lemma legacy_zero_interval_publishes_non_finite_witness :
  let storage := Legacy.Build_UlpPulseCounterStorage Ulp.increment Ulp.disable (Some 4) in
  let this := Legacy.Build_PulseCounterUlpSensor 4 storage 5000 0 false false in
  exists this' w',
    Legacy.update int32_t uint32_t 5000 this (World (RtcSlowMem 0 0 3 3 0 4 0) [])
      = Done this' w' /\
    published (trace w') = [S754_nan].
Proof.
  intros storage this.
  destruct (legacy_zero_interval_publishes_non_finite int32_t uint32_t 5000 this
              (World (RtcSlowMem 0 0 3 3 0 4 0) []))
    as (this' & w' & rate & Hu & Hp & _).
  - cbn. discriminate.
  - reflexivity.
  - exists this', w'. split; [exact Hu|].
    rewrite legacy_update_spec in Hu. injection Hu as _ <-. reflexivity.
Defined.

(** The earlier revision reconstructs no time at a wake-up: a sensor built
    with [last_time_] zero still has it zero after [setup], so its first
    tick publishes no rate.  The tick drains the edges counted during the
    sleep all the same; they reach the total, when one is configured, and
    no rate. *)
Theorem legacy_first_tick_after_wake_publishes_no_rate :
  forall (pc ts : int_type) (p : platform) (millis : Z)
         (this : Legacy.PulseCounterUlpSensor) (w : world),
    esp_sleep_get_wakeup_cause p <> ESP_SLEEP_WAKEUP_UNDEFINED ->
    Legacy.last_time_ this = 0 ->
    exists this' w',
      (this1 <- Legacy.setup p this ;; Legacy.update pc ts millis this1) w
        = Done this' w' /\
      published (trace w') = published (trace w) /\
      ulp_edge_count (mem w') = 0 /\
      Legacy.last_time_ this' = int_cast ts millis /\
      Legacy.current_total_ this' =
        (if Legacy.total_sensor_ this
         then to_uint32 (Legacy.current_total_ this +
                         int_cast pc (ulp_edge_count (mem w)))
         else Legacy.current_total_ this).
Proof.
  intros pc ts p millis this w Hwake Hlast.
  unfold bind at 1. unfold Legacy.setup. unfold bind at 1.
  rewrite pulse_counter_setup_spec.
  apply Z.eqb_neq in Hwake. rewrite Hwake. cbn [fst snd negb]. unfold ret.
  rewrite legacy_update_spec. cbv zeta.
  cbn [Legacy.last_time_ Legacy.total_sensor_ Legacy.current_total_
       Legacy.with_storage mem trace].
  rewrite Hlast. cbn [Z.eqb negb].
  do 2 eexists. split; [reflexivity|]. cbn [mem trace]. repeat split.
  - rewrite !published_app. destruct (Legacy.total_sensor_ this); cbn;
      now rewrite ?app_nil_r.
  - destruct (mem w); reflexivity.
  - destruct (Legacy.total_sensor_ this); reflexivity.
Qed.

Lemma legacy_first_tick_after_wake_publishes_no_rate_witness :
  let p := Platform ESP_OK ESP_OK (fun _ => true) (fun g => g) 4 in
  let storage := Legacy.Build_UlpPulseCounterStorage Ulp.increment Ulp.disable None in
  let this := Legacy.Build_PulseCounterUlpSensor 4 storage 0 0 true false in
  exists this' w',
    (this1 <- Legacy.setup p this ;; Legacy.update int32_t uint32_t 1234 this1)
      (World (RtcSlowMem 250 0 3 3 0 4 0) []) = Done this' w' /\
    published (trace w') = [] /\
    published_totals (trace w') = [250] /\
    ulp_edge_count (mem w') = 0.
Proof.
  intros p storage this.
  destruct (legacy_first_tick_after_wake_publishes_no_rate int32_t uint32_t p 1234
              this (World (RtcSlowMem 250 0 3 3 0 4 0) []))
    as (this' & w' & Hs & Hp & He & _).
  - cbn. discriminate.
  - reflexivity.
  - exists this', w'. split; [exact Hs|]. split; [exact Hp|].
    split; [|exact He].
    vm_compute in Hs. injection Hs as _ <-. reflexivity.
Defined.

(** A tick whose millisecond reading converts to zero leaves
    [last_time_] zero, so the tick after it publishes no rate, whatever
    time has passed: of two such ticks in a row only the first can
    publish one. *)
Theorem legacy_tick_at_zero_silences_the_next :
  forall (pc ts : int_type) (millis1 millis2 : Z)
         (this : Legacy.PulseCounterUlpSensor) (w : world),
    int_cast ts millis1 = 0 ->
    exists this1 w1 this2 w2,
      Legacy.update pc ts millis1 this w = Done this1 w1 /\
      Legacy.update pc ts millis2 this1 w1 = Done this2 w2 /\
      Legacy.last_time_ this1 = 0 /\
      published (trace w2) = published (trace w1).
Proof.
  intros pc ts millis1 millis2 this w Hzero.
  rewrite legacy_update_spec. cbv zeta. rewrite Hzero.
  do 4 eexists. split; [reflexivity|].
  rewrite legacy_update_spec. cbv zeta.
  split; [reflexivity|].
  cbn [Legacy.last_time_ Legacy.with_last_time trace]. split; [reflexivity|].
  cbn [Z.eqb negb].
  rewrite (published_app (_ ++ _)).
  match goal with
  | |- context [if ?b then [PublishTotal ?n] else []] =>
      destruct b; cbn; now rewrite ?app_nil_r
  end.
Qed.

Lemma legacy_tick_at_zero_silences_the_next_witness :
  let storage := Legacy.Build_UlpPulseCounterStorage Ulp.increment Ulp.disable (Some 4) in
  let this := Legacy.Build_PulseCounterUlpSensor 4 storage 4294907296 0 false false in
  exists this1 w1 this2 w2,
    Legacy.update int32_t uint32_t 0 this
      (World (RtcSlowMem 120 0 3 3 0 4 0) []) = Done this1 w1 /\
    Legacy.update int32_t uint32_t 60000 this1
      (World (store EdgeCount 120 (mem w1)) (trace w1)) = Done this2 w2 /\
    length (published (trace w1)) = 1%nat /\
    length (published (trace w2)) = 1%nat.
Proof.
  intros storage this.
  destruct (legacy_tick_at_zero_silences_the_next int32_t uint32_t 0 60000
              this (World (RtcSlowMem 120 0 3 3 0 4 0) []))
    as (this1 & w1 & _ & _ & Hu1 & _ & _ & _); [reflexivity|].
  eassert (Hu2 : Legacy.update int32_t uint32_t 60000 this1
                   (World (store EdgeCount 120 (mem w1)) (trace w1)) = Done _ _).
  { rewrite legacy_update_spec. reflexivity. }
  exists this1, w1. do 2 eexists. split; [exact Hu1|]. split; [exact Hu2|].
  vm_compute in Hu1. injection Hu1 as <- <-. split; reflexivity.
Defined.

(** ** The total of the earlier revision *)

(** Without a total sensor no total is published and [current_total_]
    stays as it is, over any series of ticks. *)
Theorem legacy_no_total_sensor_no_totals :
  forall (pc ts : int_type) (ticks : list Legacy.tick)
         (this : Legacy.PulseCounterUlpSensor) (w : world),
    Legacy.total_sensor_ this = false ->
    exists this' w',
      Legacy.run_ticks pc ts ticks this w = Done this' w' /\
      published_totals (trace w') = published_totals (trace w) /\
      Legacy.current_total_ this' = Legacy.current_total_ this /\
      Legacy.total_sensor_ this' = false.
Proof.
  intros pc ts ticks. induction ticks as [| t ticks IH]; intros this w Hnone.
  - exists this, w. repeat split. assumption.
  - cbn [Legacy.run_ticks]. unfold bind at 1. unfold aux_activity at 1.
    unfold bind at 1. rewrite legacy_update_spec. cbv zeta. cbn [mem trace].
    rewrite Hnone.
    match goal with
    | |- context [Legacy.run_ticks pc ts ticks ?s ?v] =>
        destruct (IH s v) as (this' & w' & Hrun & Hpub & Htot & Hts);
          [exact Hnone|]
    end.
    exists this', w'. split; [exact Hrun|].
    rewrite Hpub, Htot. cbn [trace Legacy.current_total_ Legacy.with_last_time].
    repeat split; [|assumption].
    rewrite !published_totals_app.
    destruct (negb (Legacy.last_time_ this =? 0)); cbn; now rewrite ?app_nil_r.
Qed.

Lemma legacy_no_total_sensor_no_totals_witness :
  let storage := Legacy.Build_UlpPulseCounterStorage Ulp.increment Ulp.disable (Some 4) in
  let this := Legacy.Build_PulseCounterUlpSensor 4 storage 0 17 false false in
  let edges n := fun m => store EdgeCount (ulp_edge_count m + n) m in
  let ticks := [Legacy.Tick (edges 10) 60000; Legacy.Tick (edges 15) 120000] in
  exists this' w',
    Legacy.run_ticks int32_t uint32_t ticks this (World (RtcSlowMem 0 0 3 3 0 4 0) [])
      = Done this' w' /\
    published_totals (trace w') = [] /\
    Legacy.current_total_ this' = 17.
Proof.
  intros storage this edges ticks.
  destruct (legacy_no_total_sensor_no_totals int32_t uint32_t ticks this
              (World (RtcSlowMem 0 0 3 3 0 4 0) []))
    as (this' & w' & Hrun & Hpub & Htot & _); [reflexivity|].
  exists this', w'. repeat split; assumption.
Defined.

(** [set_total_pulses] needs the total sensor: without one it has no
    defined result.  With one it publishes the given number as a
    [uint32_t], and the ticks that follow publish the running sums that
    start from it. *)
Theorem set_total_pulses_then_ticks :
  forall (pc ts : int_type) (pulses : Z) (ticks : list Legacy.tick)
         (this : Legacy.PulseCounterUlpSensor) (w : world),
    (Legacy.total_sensor_ this = false ->
     Legacy.set_total_pulses pulses this = None) /\
    (Legacy.total_sensor_ this = true ->
     exists c this' w',
       Legacy.set_total_pulses pulses this = Some c /\
       (this1 <- c ;; Legacy.run_ticks pc ts ticks this1) w = Done this' w' /\
       published_totals (trace w') =
         published_totals (trace w) ++
         to_uint32 pulses ::
         Legacy.running_totals (to_uint32 pulses)
           (Legacy.drained_counts pc (mem w) ticks)).
Proof.
  intros pc ts pulses ticks this w. unfold Legacy.set_total_pulses.
  cbn [Legacy.total_sensor_ Legacy.with_current_total].
  split; intros Htotal; rewrite Htotal; [reflexivity|].
  destruct (legacy_run_ticks_totals pc ts ticks
              (Legacy.with_current_total this (to_uint32 pulses))
              (World (mem w) (trace w ++ [PublishTotal (to_uint32 pulses)])))
    as (this' & w' & Hrun & _ & Hpub); [exact Htotal|].
  eexists. exists this', w'. split; [reflexivity|].
  unfold bind at 1. unfold bind at 1. unfold emit at 1. unfold ret at 1.
  split; [exact Hrun|].
  rewrite Hpub. cbn [mem trace Legacy.current_total_ Legacy.with_current_total].
  rewrite published_totals_app, <- app_assoc. reflexivity.
Qed.
